(** * ssdjwtauth: the token verifier of ssd-jwt-auth

    A shallow embedding of [ssdjwtauth/verifier.go] together with the parts
    of its dependencies that decide its behaviour:
    - [strings.Split] and [net/http.Header.Get] of the Go standard library,
    - [context.WithValue] and [Context.Value],
    - the parser and validator of [github.com/golang-jwt/jwt/v5]
      ([parser.go], [parser_option.go], [validator.go]).

    Go strings are byte sequences and are modelled by [string]; Go maps are
    [gmap]s; a Go [error] result is a value of type [error], [nil] being
    [None]; run-time panics and blocking on a mutex are outcomes of the
    [Go] monad below. *)

From Stdlib Require Import ZArith Ascii String List Lia.
From stdpp Require Import base option gmap strings list fin_maps.

Local Open Scope string_scope.
Set Warnings "-register-all".

(** ** Outcomes of Go code *)

(** A call returns normally, panics, or never returns because it waits for
    a mutex that is not released. *)
Inductive Outcome (A : Type) : Type :=
| Returns (a : A)
| Panics (msg : string)
| Blocks.
Arguments Returns {A} a.
Arguments Panics {A} msg.
Arguments Blocks {A}.

(** Code that reads and writes a state of type [St]. *)
Definition Go (St A : Type) : Type := St -> Outcome (A * St).

Definition ret {St A} (a : A) : Go St A := fun st => Returns (a, st).

Definition bind {St A B} (m : Go St A) (k : A -> Go St B) : Go St B :=
  fun st =>
    match m st with
    | Returns (a, st') => k a st'
    | Panics msg => Panics msg
    | Blocks => Blocks
    end.

Notation "x <- m ;; k" := (bind m (fun x => k))
  (at level 100, m at next level, right associativity).
Notation "m ;;; k" := (bind m (fun _ => k))
  (at level 100, right associativity).

(** [defer cleanup] at the head of a function whose remaining body is
    [body]: the cleanup runs when the body returns. *)
Definition defer {St A} (cleanup : Go St unit) (body : Go St A) : Go St A :=
  r <- body ;; cleanup ;;; ret r.

(** ** Package strings *)

Module strings.

(** [s[n:]] for [n <= len(s)]. *)
Fixpoint from (n : nat) (s : string) : string :=
  match n, s with
  | S n', String _ s' => from n' s'
  | _, _ => s
  end.

(** [s[:n]] for [n <= len(s)]. *)
Fixpoint upto (n : nat) (s : string) : string :=
  match n, s with
  | S n', String c s' => String c (upto n' s')
  | _, _ => ""
  end.

(** [strings.HasPrefix(s, prefix)]. *)
Fixpoint HasPrefix (s prefix : string) : bool :=
  match prefix, s with
  | "", _ => true
  | String p prefix', String c s' =>
      if Ascii.eqb c p then HasPrefix s' prefix' else false
  | String _ _, "" => false
  end.

(** [strings.Index(s, substr)]: the byte index of the first instance of
    [substr] in [s]; Go's [-1] is [None]. *)
Fixpoint Index (s substr : string) : option nat :=
  if HasPrefix s substr then Some 0
  else match s with
       | "" => None
       | String _ s' => S <$> Index s' substr
       end.

(** The loop of [strings.Count] for a non-empty [substr]: the number of
    non-overlapping instances.  Every round removes at least one byte of
    [s], so [String.length s] rounds are enough (lemma [Count_loop_fuel]
    below). *)
Fixpoint Count_loop (fuel : nat) (s substr : string) : nat :=
  match fuel with
  | O => 0
  | S fuel' =>
      match Index s substr with
      | None => 0
      | Some i => S (Count_loop fuel' (from (i + String.length substr) s) substr)
      end
  end.

Definition Count (s substr : string) : nat :=
  Count_loop (String.length s) s substr.

(** The loop of [genSplit]:
    [for i < n { m := Index(s, sep); if m < 0 { break }; a[i] = s[:m];
    s = s[m+len(sep):]; i++ }; a[i] = s; return a[:i+1]]. *)
Fixpoint genSplit_loop (n : nat) (s sep : string) : list string :=
  match n with
  | O => [s]
  | S n' =>
      match Index s sep with
      | None => [s]
      | Some m => upto m s :: genSplit_loop n' (from (m + String.length sep) s) sep
      end
  end.

(** [strings.Split(s, sep)] for a non-empty separator: [genSplit] with
    [Count(s, sep) + 1] slots, the loop running while [i < n - 1]. *)
Definition Split (s sep : string) : list string :=
  genSplit_loop (Count s sep) s sep.

(** [strings.Contains(s, substr)] as a proposition. *)
Definition Contains (s substr : string) : Prop :=
  exists a b : string, s = (a ++ substr ++ b)%string.

(** [strings.Join(elems, sep)]. *)
Fixpoint Join (elems : list string) (sep : string) : string :=
  match elems with
  | [] => ""
  | [e] => e
  | e :: rest => e ++ sep ++ Join rest sep
  end.

End strings.

(** ** Package time *)

Module time.

(** An instant, in nanoseconds since the Unix epoch.  [time.Time] counts
    seconds in 64 bits and covers a range far wider than the instants a
    token or a clock gives; its arithmetic is modelled on the integers. *)
Definition Time : Type := Z.

(** [time.Duration]: a count of nanoseconds ([int64]). *)
Definition Duration : Type := Z.

Definition Nanosecond : Duration := 1%Z.
Definition Second : Duration := (1000000000 * Nanosecond)%Z.
Definition Minute : Duration := (60 * Second)%Z.

(** [t.Add(d)]. *)
Definition Add (t : Time) (d : Duration) : Time := (t + d)%Z.

(** [t.Before(u)]. *)
Definition Before (t u : Time) : bool := (t <? u)%Z.

End time.

(** ** Errors *)

(** An [error] value: [errors.New] and [fmt.Errorf] without [%w] give an
    [errorString]; an error that wraps others ([fmt.Errorf] with [%w], the
    joined errors of the jwt package) keeps its formatted message and the
    errors it wraps.  Sentinel errors are told apart by their messages,
    which are pairwise different. *)
Inductive error : Type :=
| errorString (msg : string)
| wrapErrors (msg : string) (errs : list error).

(** [err.Error()]. *)
Definition Error (e : error) : string :=
  match e with
  | errorString msg => msg
  | wrapErrors msg _ => msg
  end.

(** [errors.Is(err, target)] for a sentinel [target]. *)
Fixpoint Is (err target : error) : bool :=
  match err with
  | errorString msg =>
      match target with
      | errorString msg' => String.eqb msg msg'
      | wrapErrors _ _ => false
      end
  | wrapErrors _ errs => existsb (fun e => Is e target) errs
  end.

(** The result of a Go function that returns [(T, error)]. *)
Inductive Result (A : Type) : Type :=
| Ok (a : A)
| Err (e : error).
Arguments Ok {A} a.
Arguments Err {A} e.

(** ** Dynamically typed values *)

(** A value of type [any] ([interface{}]): [nil], or a dynamic type with a
    value of it.  The types that the package inspects are spelled out,
    every other type is given by name with a rendering of the value.  A
    pointer [*SsdJwtClaims] is [None] when it is [nil]. *)
Inductive any (C : Type) : Type :=
| any_nil
| any_string (s : string)
| any_int (n : Z)
| any_ssdContextKeyType (n : Z)
| any_SsdJwtClaims (p : option C)
| any_other (type_name value : string).
Arguments any_nil {C}.
Arguments any_string {C} s.
Arguments any_int {C} n.
Arguments any_ssdContextKeyType {C} n.
Arguments any_SsdJwtClaims {C} p.
Arguments any_other {C} type_name value.

(** [k1 == k2] on the keys the package and its callers use with
    [context.WithValue]: equal dynamic types and equal values.  Pointers
    are equal when they are the same address, which a pointer to claims
    does not keep here: as a key it is taken to differ from every key. *)
Definition key_eqb {C} (k1 k2 : any C) : bool :=
  match k1, k2 with
  | any_nil, any_nil => true
  | any_string s1, any_string s2 => String.eqb s1 s2
  | any_int n1, any_int n2 => Z.eqb n1 n2
  | any_ssdContextKeyType n1, any_ssdContextKeyType n2 => Z.eqb n1 n2
  | any_other t1 v1, any_other t2 v2 => String.eqb t1 t2 && String.eqb v1 v2
  | _, _ => false
  end.

(** ** Package context *)

Module context.

(** A context as far as [Value] sees it: the chain of [WithValue] layers
    over a context without values. *)
Inductive Context (C : Type) : Type :=
| Background
| valueCtx (parent : Context C) (key val : any C).
Arguments Background {C}.
Arguments valueCtx {C} parent key val.

(** [context.WithValue(parent, key, val)] for a non-nil comparable key. *)
Definition WithValue {C} (parent : Context C) (key val : any C) : Context C :=
  valueCtx parent key val.

(** [ctx.Value(key)]: the value of the innermost layer with that key,
    [nil] when there is none. *)
Fixpoint Value {C} (ctx : Context C) (key : any C) : any C :=
  match ctx with
  | Background => any_nil
  | valueCtx parent k v => if key_eqb k key then v else Value parent key
  end.

End context.

(** ** Packages net/textproto and net/http *)

Module http.

(** [validHeaderFieldByte]: the token characters of RFC 7230. *)
Definition validHeaderFieldByte (c : ascii) : bool :=
  let n := nat_of_ascii c in
  ((48 <=? n)%nat && (n <=? 57)%nat) || ((65 <=? n)%nat && (n <=? 90)%nat) ||
  ((97 <=? n)%nat && (n <=? 122)%nat) ||
  existsb (Ascii.eqb c) (list_ascii_of_string "!#$%&'*+-.^_`|~").

Fixpoint all_valid (s : string) : bool :=
  match s with
  | "" => true
  | String c s' => validHeaderFieldByte c && all_valid s'
  end.

(** The second loop of [canonicalMIMEHeaderKey]: upper case for the first
    letter and each letter after a dash, lower case for the others. *)
Fixpoint canonical_loop (upper : bool) (s : string) : string :=
  match s with
  | "" => ""
  | String c s' =>
      let n := nat_of_ascii c in
      let c' :=
        if upper && (97 <=? n)%nat && (n <=? 122)%nat then ascii_of_nat (n - 32)
        else if negb upper && (65 <=? n)%nat && (n <=? 90)%nat then ascii_of_nat (n + 32)
        else c in
      String c' (canonical_loop (Ascii.eqb c' "-") s')
  end.

(** [textproto.CanonicalMIMEHeaderKey(s)]: a key with a byte that is not a
    token character is returned unchanged. *)
Definition CanonicalMIMEHeaderKey (s : string) : string :=
  if all_valid s then canonical_loop true s else s.

(** [http.Header] is [map[string][]string]. *)
Definition Header : Type := gmap string (list string).

(** [h.Get(key)]: the first value of the canonical form of [key], or the
    empty string. *)
Definition Get (h : Header) (key : string) : string :=
  match h !! CanonicalMIMEHeaderKey key with
  | Some (v :: _) => v
  | _ => ""
  end.

(** The part of [*http.Request] the package reads. *)
Record Request (C : Type) : Type := mkRequest {
  Header_of : Header;
  ctx : context.Context C
}.
Arguments mkRequest {C} _ _.
Arguments Header_of {C} _.
Arguments ctx {C} _.

(** [r.Context()] and [r.WithContext(ctx)]. *)
Definition Context {C} (r : Request C) : context.Context C := ctx r.
Definition WithContext {C} (r : Request C) (c : context.Context C) : Request C :=
  mkRequest (Header_of r) c.

Definition StatusOK : Z := 200.
Definition StatusUnauthorized : Z := 401.

(** What an [http.ResponseWriter] has been asked to send: whether the
    status line is out, the status code, and the body so far. *)
Record ResponseWriter : Type := mkResponse {
  wroteHeader : bool;
  status : Z;
  body : list Byte.byte
}.

(** A response nothing has been written to. *)
Definition fresh : ResponseWriter := mkResponse false 0 [].

(** [w.WriteHeader(code)]: only the first call sets the status. *)
Definition WriteHeader (code : Z) (w : ResponseWriter) : ResponseWriter :=
  if wroteHeader w then w else mkResponse true code (body w).

(** [w.Write(b)]: sends status 200 first when no status is out yet. *)
Definition Write (b : list Byte.byte) (w : ResponseWriter) : ResponseWriter :=
  let w' := if wroteHeader w then w else WriteHeader StatusOK w in
  mkResponse (wroteHeader w') (status w') (body w' ++ b)%list.

End http.

(** ** Ranging over a map *)

(** The order in which [for name, value := range m] visits a map: every
    entry once, in an order the language leaves open. *)
Class MapRange : Type := {
  range : forall {V : Type}, gmap string V -> list (string * V);
  range_perm : forall (V : Type) (m : gmap string V), range m ≡ₚ map_to_list m
}.

(** ** Package github.com/golang-jwt/jwt/v5 *)

Module jwt.

Definition ErrTokenMalformed : error := errorString "token is malformed".
Definition ErrTokenUnverifiable : error := errorString "token is unverifiable".
Definition ErrTokenSignatureInvalid : error := errorString "token signature is invalid".
Definition ErrTokenRequiredClaimMissing : error := errorString "token is missing required claim".
Definition ErrTokenInvalidAudience : error := errorString "token has invalid audience".
Definition ErrTokenExpired : error := errorString "token is expired".
Definition ErrTokenUsedBeforeIssued : error := errorString "token used before issued".
Definition ErrTokenInvalidIssuer : error := errorString "token has invalid issuer".
Definition ErrTokenInvalidSubject : error := errorString "token has invalid subject".
Definition ErrTokenNotValidYet : error := errorString "token is not valid yet".
Definition ErrTokenInvalidClaims : error := errorString "token has invalid claims".

(** [newError(message, err, more...)]: an error that wraps [err] and
    [more], formatted as ["%w: %s: %w ..."]. *)
Definition newError (message : string) (err : error) (more : list error) : error :=
  let head := if String.eqb message "" then Error err
              else (Error err ++ ": " ++ message)%string in
  wrapErrors (fold_left (fun acc e => (acc ++ ": " ++ Error e)%string) more head)
             (err :: more).

(** [joinErrors(errs...)]. *)
Definition joinErrors (errs : list error) : error :=
  wrapErrors (strings.Join (map Error errs) ", ") errs.

(** [errorIfFalse(value, err)]. *)
Definition errorIfFalse (value : bool) (err : error) : option error :=
  if value then None else Some err.

(** [errorIfRequired(required, claim)]. *)
Definition errorIfRequired (required : bool) (claim : string) : option error :=
  if required
  then Some (newError (claim ++ " claim is required") ErrTokenRequiredClaimMissing [])
  else None.

(** The interface [jwt.Claims]; a [*NumericDate] is [None] when [nil].
    [ClaimsValidator] is the [Validate] method of a claims type that
    implements the interface of that name, [None] for a type that does
    not. *)
Class Claims (C : Type) : Type := {
  GetExpirationTime : C -> Result (option time.Time);
  GetIssuedAt : C -> Result (option time.Time);
  GetNotBefore : C -> Result (option time.Time);
  GetIssuer : C -> Result string;
  GetSubject : C -> Result string;
  GetAudience : C -> Result (list string);
  ClaimsValidator : option (C -> option error)
}.

(** What the package takes from encoding/base64, encoding/json, crypto and
    time: the decoders of the three segments, the signature check of the
    signing method registered under a name, the PEM parser for RSA public
    keys, and the wall clock. *)
Class Primitives (C PublicKey : Type) : Type := {
  DecodeSegment : string -> Result (list Byte.byte);
  UnmarshalHeader : list Byte.byte -> Result (gmap string (any C));
  UnmarshalClaims : list Byte.byte -> Result C;
  VerifySignature : string -> string -> list Byte.byte -> PublicKey -> option error;
  ParseRSAPublicKeyFromPEM : list Byte.byte -> Result PublicKey;
  Now : unit -> time.Time
}.

(** [Validator]: the fields the parser options set. *)
Record Validator : Type := mkValidator {
  leeway : time.Duration;
  timeFunc : option (unit -> time.Time);
  requireExp : bool;
  verifyIat : bool;
  expectedAud : string;
  expectedIss : string;
  expectedSub : string
}.

(** [Parser]; a [nil] slice of valid methods is [None]. *)
Record Parser : Type := mkParser {
  validMethods : option (list string);
  skipClaimsValidation : bool;
  validator : Validator
}.

(** A [ParserOption] is a function that updates the parser. *)
Definition ParserOption : Type := Parser -> Parser.

Definition on_validator (f : Validator -> Validator) : ParserOption :=
  fun p => mkParser (validMethods p) (skipClaimsValidation p) (f (validator p)).

Definition WithValidMethods (methods : list string) : ParserOption :=
  fun p => mkParser (Some methods) (skipClaimsValidation p) (validator p).

Definition WithTimeFunc (f : unit -> time.Time) : ParserOption :=
  on_validator (fun v => mkValidator (leeway v) (Some f) (requireExp v) (verifyIat v)
                           (expectedAud v) (expectedIss v) (expectedSub v)).

Definition WithLeeway (d : time.Duration) : ParserOption :=
  on_validator (fun v => mkValidator d (timeFunc v) (requireExp v) (verifyIat v)
                           (expectedAud v) (expectedIss v) (expectedSub v)).

Definition WithIssuedAt : ParserOption :=
  on_validator (fun v => mkValidator (leeway v) (timeFunc v) (requireExp v) true
                           (expectedAud v) (expectedIss v) (expectedSub v)).

Definition WithExpirationRequired : ParserOption :=
  on_validator (fun v => mkValidator (leeway v) (timeFunc v) true (verifyIat v)
                           (expectedAud v) (expectedIss v) (expectedSub v)).

Definition WithAudience (aud : string) : ParserOption :=
  on_validator (fun v => mkValidator (leeway v) (timeFunc v) (requireExp v) (verifyIat v)
                           aud (expectedIss v) (expectedSub v)).

Definition WithIssuer (iss : string) : ParserOption :=
  on_validator (fun v => mkValidator (leeway v) (timeFunc v) (requireExp v) (verifyIat v)
                           (expectedAud v) iss (expectedSub v)).

(** [NewParser(options...)]: the options applied in order to a parser with
    a zero validator. *)
Definition NewParser (options : list ParserOption) : Parser :=
  fold_left (fun p option => option p) options
    (mkParser None false (mkValidator 0%Z None false false "" "" "")).

(** [SigningMethodPS256.Name]. *)
Definition SigningMethodPS256_Name : string := "PS256".

(** The names under which the package registers its signing methods. *)
Definition signingMethods : list string :=
  ["HS256"; "HS384"; "HS512"; "RS256"; "RS384"; "RS512"; "PS256"; "PS384";
   "PS512"; "ES256"; "ES384"; "ES512"; "EdDSA"; "none"].

(** [RegisteredClaims], whose getters return the fields and no error. *)
Record RegisteredClaims : Type := mkRegisteredClaims {
  Issuer : string;
  Subject : string;
  Audience : list string;
  ExpiresAt : option time.Time;
  NotBefore : option time.Time;
  IssuedAt : option time.Time;
  ID : string
}.

#[global] Instance RegisteredClaims_Claims : Claims RegisteredClaims := {
  GetExpirationTime c := Ok (ExpiresAt c);
  GetIssuedAt c := Ok (IssuedAt c);
  GetNotBefore c := Ok (NotBefore c);
  GetIssuer c := Ok (Issuer c);
  GetSubject c := Ok (Subject c);
  GetAudience c := Ok (Audience c);
  ClaimsValidator := None
}.

Section Parsing.
Context {C PublicKey : Type}.
Context {claims_methods : Claims C} {primitives : Primitives C PublicKey}.

(** The interface [SigningMethod]. *)
Record SigningMethod : Type := mkSigningMethod {
  Alg : string;
  Verify : string -> list Byte.byte -> PublicKey -> option error
}.

(** [GetSigningMethod(alg)]; [nil] is [None]. *)
Definition GetSigningMethod (alg : string) : option SigningMethod :=
  if existsb (String.eqb alg) signingMethods
  then Some (mkSigningMethod alg (VerifySignature alg))
  else None.

Record Token : Type := mkToken {
  Raw : string;
  Method : SigningMethod;
  Header : gmap string (any C);
  Claims_of : C;
  Signature : list Byte.byte;
  Valid : bool
}.

(** [Keyfunc], run in a state [St]. *)
Definition Keyfunc (St : Type) : Type := Token -> Go St (Result PublicKey).

(** [v.verifyExpiresAt(claims, cmp, required)]. *)
Definition verifyExpiresAt (v : Validator) (claims : C) (cmp : time.Time)
    (required : bool) : option error :=
  match GetExpirationTime claims with
  | Err err => Some err
  | Ok None => errorIfRequired required "exp"
  | Ok (Some exp) =>
      errorIfFalse (time.Before cmp (time.Add exp (leeway v))) ErrTokenExpired
  end.

(** [v.verifyIssuedAt(claims, cmp, required)]. *)
Definition verifyIssuedAt (v : Validator) (claims : C) (cmp : time.Time)
    (required : bool) : option error :=
  match GetIssuedAt claims with
  | Err err => Some err
  | Ok None => errorIfRequired required "iat"
  | Ok (Some iat) =>
      errorIfFalse (negb (time.Before cmp (time.Add iat (- leeway v)%Z)))
                   ErrTokenUsedBeforeIssued
  end.

(** [v.verifyNotBefore(claims, cmp, required)]. *)
Definition verifyNotBefore (v : Validator) (claims : C) (cmp : time.Time)
    (required : bool) : option error :=
  match GetNotBefore claims with
  | Err err => Some err
  | Ok None => errorIfRequired required "nbf"
  | Ok (Some nbf) =>
      errorIfFalse (negb (time.Before cmp (time.Add nbf (- leeway v)%Z)))
                   ErrTokenNotValidYet
  end.

(** The loop of [verifyAudience]: whether some entry equals [cmp], and the
    concatenation of the entries. *)
Fixpoint audience_loop (aud : list string) (cmp : string) (result : bool)
    (stringClaims : string) : bool * string :=
  match aud with
  | [] => (result, stringClaims)
  | a :: rest =>
      audience_loop rest cmp (if String.eqb a cmp then true else result)
                    (stringClaims ++ a)%string
  end.

(** [v.verifyAudience(claims, cmp, required)]. *)
Definition verifyAudience (v : Validator) (claims : C) (cmp : string)
    (required : bool) : option error :=
  match GetAudience claims with
  | Err err => Some err
  | Ok aud =>
      if (List.length aud =? 0)%nat then errorIfRequired required "aud"
      else
        let '(result, stringClaims) := audience_loop aud cmp false "" in
        if String.eqb stringClaims "" then errorIfRequired required "aud"
        else errorIfFalse result ErrTokenInvalidAudience
  end.

(** [v.verifyIssuer(claims, cmp, required)]. *)
Definition verifyIssuer (v : Validator) (claims : C) (cmp : string)
    (required : bool) : option error :=
  match GetIssuer claims with
  | Err err => Some err
  | Ok iss =>
      if String.eqb iss "" then errorIfRequired required "iss"
      else errorIfFalse (String.eqb iss cmp) ErrTokenInvalidIssuer
  end.

(** [v.verifySubject(claims, cmp, required)]. *)
Definition verifySubject (v : Validator) (claims : C) (cmp : string)
    (required : bool) : option error :=
  match GetSubject claims with
  | Err err => Some err
  | Ok sub =>
      if String.eqb sub "" then errorIfRequired required "sub"
      else errorIfFalse (String.eqb sub cmp) ErrTokenInvalidSubject
  end.

(** [errs = append(errs, err)] when [err != nil]. *)
Definition collect (errs : list error) (err : option error) : list error :=
  match err with
  | Some e => (errs ++ [e])%list
  | None => errs
  end.

(** The errors [v.Validate(claims)] collects, in order. *)
Definition Validate_errs (v : Validator) (claims : C) : list error :=
  let now := match timeFunc v with
             | Some f => f tt
             | None => Now tt
             end in
  let errs := [] in
  let errs := collect errs (verifyExpiresAt v claims now (requireExp v)) in
  let errs := collect errs (verifyNotBefore v claims now false) in
  let errs := if verifyIat v
              then collect errs (verifyIssuedAt v claims now false) else errs in
  let errs := if negb (String.eqb (expectedAud v) "")
              then collect errs (verifyAudience v claims (expectedAud v) true) else errs in
  let errs := if negb (String.eqb (expectedIss v) "")
              then collect errs (verifyIssuer v claims (expectedIss v) true) else errs in
  let errs := if negb (String.eqb (expectedSub v) "")
              then collect errs (verifySubject v claims (expectedSub v) true) else errs in
  match ClaimsValidator with
  | Some validate => collect errs (validate claims)
  | None => errs
  end.

(** [v.Validate(claims)]. *)
Definition Validate (v : Validator) (claims : C) : option error :=
  match Validate_errs v claims with
  | [] => None
  | errs => Some (joinErrors errs)
  end.

(** [p.ParseUnverified(tokenString, claims)]: the token and its three
    segments.  The token the library returns next to an error is left out,
    [VerifyToken] drops it. *)
Definition ParseUnverified (p : Parser) (tokenString : string)
    : Result (Token * list string) :=
  let parts := strings.Split tokenString "." in
  match parts with
  | [part0; part1; part2] =>
      match DecodeSegment part0 with
      | Err err => Err (newError "could not base64 decode header" ErrTokenMalformed [err])
      | Ok headerBytes =>
      match UnmarshalHeader headerBytes with
      | Err err => Err (newError "could not JSON decode header" ErrTokenMalformed [err])
      | Ok header =>
      match DecodeSegment part1 with
      | Err err => Err (newError "could not base64 decode claim" ErrTokenMalformed [err])
      | Ok claimBytes =>
      match UnmarshalClaims claimBytes with
      | Err err => Err (newError "could not JSON decode claim" ErrTokenMalformed [err])
      | Ok claims =>
      match header !! "alg" with
      | Some (any_string headerAlg) =>
          match GetSigningMethod headerAlg with
          | None => Err (newError "signing method (alg) is unavailable" ErrTokenUnverifiable [])
          | Some method =>
              Ok (mkToken tokenString method header claims [] false, parts)
          end
      | _ => Err (newError "signing method (alg) is unspecified" ErrTokenUnverifiable [])
      end end end end end
  | _ => Err (newError "token contains an invalid number of segments" ErrTokenMalformed [])
  end.

(** [p.ParseWithClaims(tokenString, claims, keyFunc)] for a non-nil
    [keyFunc] that returns a single key: the envelope, the check of the
    signing method against the valid methods, the signature segment, the
    key, the signature, the claims.  (Releases before 5.2 look the key up
    before they decode the signature segment; it makes a difference only
    in which error a token with both defects gets.) *)
Definition ParseWithClaims {St : Type} (p : Parser) (tokenString : string)
    (keyFunc : Keyfunc St) : Go St (Result Token) :=
  match ParseUnverified p tokenString with
  | Err err => ret (Err err)
  | Ok (token, parts) =>
      let alg := Alg (Method token) in
      let signingMethodValid :=
        match validMethods p with
        | None => true
        | Some methods => existsb (fun m => String.eqb m alg) methods
        end in
      if negb signingMethodValid
      then ret (Err (newError ("signing method " ++ alg ++ " is invalid")
                              ErrTokenSignatureInvalid []))
      else
      match DecodeSegment (default "" (parts !! 2%nat)) with
      | Err err =>
          ret (Err (newError "could not base64 decode signature" ErrTokenMalformed [err]))
      | Ok signature =>
          let token := mkToken (Raw token) (Method token) (Header token)
                               (Claims_of token) signature (Valid token) in
          let text := strings.Join (take 2 parts) "." in
          got <- keyFunc token ;;
          match got with
          | Err err =>
              ret (Err (newError "error while executing keyfunc" ErrTokenUnverifiable [err]))
          | Ok have =>
              match Verify (Method token) text (Signature token) have with
              | Some err => ret (Err (newError "" ErrTokenSignatureInvalid [err]))
              | None =>
                  let valid := mkToken (Raw token) (Method token) (Header token)
                                       (Claims_of token) (Signature token) true in
                  if skipClaimsValidation p then ret (Ok valid)
                  else match Validate (validator p) (Claims_of token) with
                       | Some err => ret (Err (newError "" ErrTokenInvalidClaims [err]))
                       | None => ret (Ok valid)
                       end
              end
          end
      end
  end.

End Parsing.

Arguments SigningMethod : clear implicits.
Arguments Token : clear implicits.
Arguments Keyfunc : clear implicits.

End jwt.

(** ** Package ssdjwtauth *)

(** The issuer and audience constants of the package; their declarations
    are in a file of the package other than verifier.go. *)
Class Constants : Type := {
  ssdTokenAudience : string;
  ssdTokenIssuer : string
}.

Section ssdjwtauth.
Context {SsdJwtClaims PublicKey : Type}.
Context {claims_methods : jwt.Claims SsdJwtClaims}.
Context {primitives : jwt.Primitives SsdJwtClaims PublicKey}.
Context {map_range : MapRange} {constants : Constants}.

Definition defaultParseOptions : list jwt.ParserOption :=
  [ jwt.WithLeeway (5 * time.Minute)%Z;
    jwt.WithAudience ssdTokenAudience;
    jwt.WithExpirationRequired;
    jwt.WithIssuedAt;
    jwt.WithIssuer ssdTokenIssuer;
    jwt.WithValidMethods [jwt.SigningMethodPS256_Name] ].

(** [Verifier]: the embedded [sync.Mutex] is held or free. *)
Record Verifier : Type := mkVerifier {
  locked : bool;
  Keys : gmap string PublicKey;
  parseOptions : list jwt.ParserOption
}.

Definition TimeFunc : Type := unit -> time.Time.

(** [v.Lock()]: waits for ever when the mutex is held and nobody else
    runs. *)
Definition Lock : Go Verifier unit :=
  fun v => if locked v then Blocks
           else Returns (tt, mkVerifier true (Keys v) (parseOptions v)).

(** [v.Unlock()]. *)
Definition Unlock : Go Verifier unit :=
  fun v => if locked v then Returns (tt, mkVerifier false (Keys v) (parseOptions v))
           else Panics "sync: unlock of unlocked mutex".

(** The loop of [parseKeys] over the entries still to visit. *)
Fixpoint parseKeys_loop (entries : list (string * list Byte.byte))
    (keys : gmap string PublicKey) : Result (gmap string PublicKey) :=
  match entries with
  | [] => Ok keys
  | (name, pemstring) :: rest =>
      match jwt.ParseRSAPublicKeyFromPEM pemstring with
      | Err err =>
          Err (errorString ("unable to parse pem for keyID " ++ name ++ ": " ++ Error err))
      | Ok rk => parseKeys_loop rest (<[name := rk]> keys)
      end
  end.

Definition parseKeys (pemkeys : gmap string (list Byte.byte))
    : Result (gmap string PublicKey) :=
  parseKeys_loop (range pemkeys) ∅.

(** [NewVerifier(pemkeys, timeFunc)]; a [nil] [timeFunc] is [None]. *)
Definition NewVerifier (pemkeys : gmap string (list Byte.byte))
    (timeFunc : option TimeFunc) : Result Verifier :=
  match parseKeys pemkeys with
  | Err err => Err err
  | Ok keys =>
      let opts := fold_left (fun opts opt => (opts ++ [opt])%list) defaultParseOptions [] in
      let opts := match timeFunc with
                  | Some f => (opts ++ [jwt.WithTimeFunc f])%list
                  | None => opts
                  end in
      Ok (mkVerifier false keys opts)
  end.

(** [v.SetKeys(pemkeys)]. *)
Definition SetKeys (pemkeys : gmap string (list Byte.byte)) : Go Verifier (option error) :=
  match parseKeys pemkeys with
  | Err err => ret (Some err)
  | Ok keys =>
      Lock ;;;
      defer Unlock
        (fun v => Returns (None, mkVerifier (locked v) keys (parseOptions v)))
  end.

(** The function [v.KeyFunc()] returns. *)
Definition KeyFunc : jwt.Keyfunc SsdJwtClaims PublicKey Verifier :=
  fun token =>
    Lock ;;;
    defer Unlock
      (fun v =>
         match jwt.Header token !! "kid" with
         | None => Returns (Err (errorString "no `kid` in header"), v)
         | Some kidi =>
             match kidi with
             | any_string kid =>
                 match Keys v !! kid with
                 | None => Returns (Err (errorString ("no such key " ++ kid)), v)
                 | Some key => Returns (Ok key, v)
                 end
             | _ => Returns (Err (errorString "cannot convert `kid` to string"), v)
             end
         end).

(** What [KeyFunc] returns, as a function of the header of the token and
    of the installed keys. *)
Definition resolve (keys : gmap string PublicKey)
    (token : jwt.Token SsdJwtClaims PublicKey) : Result PublicKey :=
  match jwt.Header token !! "kid" with
  | None => Err (errorString "no `kid` in header")
  | Some (any_string kid) =>
      match keys !! kid with
      | None => Err (errorString ("no such key " ++ kid))
      | Some key => Ok key
      end
  | Some _ => Err (errorString "cannot convert `kid` to string")
  end.

(** [v.VerifyToken(tokenString)].  The claims of the token are the
    [*SsdJwtClaims] passed to the parser, so the type assertion on them
    holds. *)
Definition VerifyToken (tokenString : string) : Go Verifier (Result SsdJwtClaims) :=
  fun v =>
    (r <- jwt.ParseWithClaims (jwt.NewParser (parseOptions v)) tokenString KeyFunc ;;
     match r with
     | Err err => ret (Err err)
     | Ok token => ret (Ok (jwt.Claims_of token))
     end) v.

Definition ssdContextKey : any SsdJwtClaims := any_ssdContextKeyType 0.
Definition ssdTokenContextKey : any SsdJwtClaims := any_ssdContextKeyType 1.

Definition contextWithToken (ctx : context.Context SsdJwtClaims)
    (claims : option SsdJwtClaims) (token : string) : context.Context SsdJwtClaims :=
  let ctx := context.WithValue ctx ssdContextKey (any_SsdJwtClaims claims) in
  let ctx := context.WithValue ctx ssdTokenContextKey (any_string token) in
  ctx.

(** The value under [ssdContextKey], asserted to be a pointer to
    [SsdJwtClaims], with the flag of the assertion. *)
Definition SSDClaimsFromContext (ctx : context.Context SsdJwtClaims)
    : option SsdJwtClaims * bool :=
  match context.Value ctx ssdContextKey with
  | any_SsdJwtClaims v => (v, true)
  | _ => (None, false)
  end.

(** The value under [ssdTokenContextKey], asserted to be a [string], with
    the flag of the assertion. *)
Definition SSDTokenFromContext (ctx : context.Context SsdJwtClaims) : string * bool :=
  match context.Value ctx ssdTokenContextKey with
  | any_string v => (v, true)
  | _ => ("", false)
  end.

(** [tokenFromHeaders(r)]: [splitToken[1]] panics when the slice has one
    element. *)
Definition tokenFromHeaders (r : http.Request SsdJwtClaims) : Outcome string :=
  let auth := http.Get (http.Header_of r) "Authorization" in
  let auth := if String.eqb auth "" then http.Get (http.Header_of r) "X-OpsMx-Auth"
              else auth in
  if String.eqb auth "" then Returns ""
  else
    let splitToken := strings.Split auth "Bearer " in
    match splitToken !! 1%nat with
    | Some token => Returns token
    | None => Panics "runtime error: index out of range"
    end.

(** The token [tokenFromHeaders] takes from a header value that is not
    empty: the second element of the split. *)
Definition extract (auth : string) : Outcome string :=
  match strings.Split auth "Bearer " !! 1%nat with
  | Some token => Returns token
  | None => Panics "runtime error: index out of range"
  end.

(** What a handler works on: the verifier the middleware shares with the
    rest of the program, and the response of the request at hand. *)
Record World : Type := mkWorld {
  verifier : Verifier;
  response : http.ResponseWriter
}.

(** [http.Handler]: [ServeHTTP(w, r)], the response being part of the
    state. *)
Definition Handler : Type := http.Request SsdJwtClaims -> Go World unit.

Definition on_verifier {A} (m : Go Verifier A) : Go World A :=
  fun st =>
    match m (verifier st) with
    | Returns (a, v') => Returns (a, mkWorld v' (response st))
    | Panics msg => Panics msg
    | Blocks => Blocks
    end.

Definition on_response (f : http.ResponseWriter -> http.ResponseWriter) : Go World unit :=
  fun st => Returns (tt, mkWorld (verifier st) (f (response st))).

Definition eval {A} (o : Outcome A) : Go World A :=
  fun st =>
    match o with
    | Returns a => Returns (a, st)
    | Panics msg => Panics msg
    | Blocks => Blocks
    end.

(** The handler [v.MiddlewareFunc()(next)]. *)
Definition MiddlewareFunc (next : Handler) : Handler :=
  fun r =>
    tokenStr <- eval (tokenFromHeaders r) ;;
    res <- on_verifier (VerifyToken tokenStr) ;;
    match res with
    | Err err =>
        on_response (http.WriteHeader http.StatusUnauthorized) ;;;
        on_response (http.Write (list_byte_of_string "Unauthorized")) ;;;
        ret tt
    | Ok claims =>
        let r := http.WithContext r
                   (contextWithToken (http.Context r) (Some claims) tokenStr) in
        next r
    end.

(** The parser options of a verifier made by [NewVerifier]. *)
Definition policy (timeFunc : option TimeFunc) : list jwt.ParserOption :=
  (defaultParseOptions ++
   match timeFunc with
   | Some f => [jwt.WithTimeFunc f]
   | None => []
   end)%list.

(** The verifiers a program gets from the package: made by [NewVerifier],
    then changed by [SetKeys] only. *)
Inductive installed (timeFunc : option TimeFunc) : Verifier -> Prop :=
| installed_new pemkeys v :
    NewVerifier pemkeys timeFunc = Ok v -> installed timeFunc v
| installed_set pemkeys v err v' :
    installed timeFunc v -> SetKeys pemkeys v = Returns (err, v') ->
    installed timeFunc v'.

(** The validator of a verifier with the options of [policy]. *)
Definition validator_of (timeFunc : option TimeFunc) : jwt.Validator :=
  jwt.mkValidator (5 * time.Minute)%Z timeFunc true true
    ssdTokenAudience ssdTokenIssuer "".

(** The instant the validator of a verifier compares with. *)
Definition now_of (timeFunc : option TimeFunc) : time.Time :=
  match timeFunc with
  | Some f => f tt
  | None => jwt.Now tt
  end.

(** The token string has three segments, the first of which decodes to
    [header]. *)
Definition declares (tokenString : string) (header : gmap string (any SsdJwtClaims))
    : Prop :=
  exists part0 part1 part2 headerBytes,
    strings.Split tokenString "." = [part0; part1; part2] /\
    jwt.DecodeSegment part0 = Ok headerBytes /\
    jwt.UnmarshalHeader headerBytes = Ok header.

(** The token string has three segments, of which the first decodes to
    [header] and the second to [claims]. *)
Definition envelope (tokenString part0 part1 part2 : string)
    (header : gmap string (any SsdJwtClaims)) (claims : SsdJwtClaims) : Prop :=
  exists headerBytes claimBytes,
    strings.Split tokenString "." = [part0; part1; part2] /\
    jwt.DecodeSegment part0 = Ok headerBytes /\
    jwt.UnmarshalHeader headerBytes = Ok header /\
    jwt.DecodeSegment part1 = Ok claimBytes /\
    jwt.UnmarshalClaims claimBytes = Ok claims.

(** The token string is a well-formed token with payload [claims], signed
    with PS256 by a key that the verifier has under the [kid] of the
    header. *)
Definition authentic (v : Verifier) (tokenString : string) (claims : SsdJwtClaims)
    : Prop :=
  exists part0 part1 part2 headerBytes header claimBytes signature kid key,
    strings.Split tokenString "." = [part0; part1; part2] /\
    jwt.DecodeSegment part0 = Ok headerBytes /\
    jwt.UnmarshalHeader headerBytes = Ok header /\
    jwt.DecodeSegment part1 = Ok claimBytes /\
    jwt.UnmarshalClaims claimBytes = Ok claims /\
    header !! "alg" = Some (any_string "PS256") /\
    jwt.DecodeSegment part2 = Ok signature /\
    header !! "kid" = Some (any_string kid) /\
    Keys v !! kid = Some key /\
    jwt.VerifySignature "PS256" (part0 ++ "." ++ part1) signature key = None.


(** A context none of whose layers has a key of type
    [ssdContextKeyType]. *)
Fixpoint plain (ctx : context.Context SsdJwtClaims) : bool :=
  match ctx with
  | context.Background => true
  | context.valueCtx parent (any_ssdContextKeyType _) _ => false
  | context.valueCtx parent _ _ => plain parent
  end.

End ssdjwtauth.

Arguments Verifier : clear implicits.
Arguments World : clear implicits.
Arguments Handler : clear implicits.

(** ** A small instance

    Concrete stand-ins for the decoders, the signature check and the PEM
    parser, to run the package on examples: a segment decodes to its own
    bytes, a header segment reads [alg/kid], a claims segment is one of
    four names, a signature is valid when it equals the key, and a PEM
    block starts with dashes. *)

Module Sample.

Definition PublicKey : Type := list Byte.byte.

Definition bytes (s : string) : list Byte.byte := list_byte_of_string s.

Definition now : time.Time := (1700000000 * time.Second)%Z.

Definition issuer : string := "OpsMx".
Definition audience : string := "ssd.opsmx.io".

Definition claims (exp iat : option time.Time) : jwt.RegisteredClaims :=
  jwt.mkRegisteredClaims issuer "user" [audience] exp None iat "".

Definition UnmarshalHeader (b : list Byte.byte)
    : Result (gmap string (any jwt.RegisteredClaims)) :=
  match strings.Split (string_of_list_byte b) "/" with
  | [alg; kid] => Ok (<["alg" := any_string alg]> (<["kid" := any_string kid]> ∅))
  | [alg] => Ok (<["alg" := any_string alg]> ∅)
  | _ => Err (errorString "unexpected end of JSON input")
  end.

Definition UnmarshalClaims (b : list Byte.byte) : Result jwt.RegisteredClaims :=
  let name := string_of_list_byte b in
  if String.eqb name "valid"
  then Ok (claims (Some (now + 60 * time.Minute)%Z) (Some (now - time.Minute)%Z))
  else if String.eqb name "expired10"
  then Ok (claims (Some (now - 10 * time.Minute)%Z) (Some (now - 60 * time.Minute)%Z))
  else if String.eqb name "expired3"
  then Ok (claims (Some (now - 3 * time.Minute)%Z) (Some (now - 60 * time.Minute)%Z))
  else if String.eqb name "noiat"
  then Ok (claims (Some (now + 60 * time.Minute)%Z) None)
  else Err (errorString "unexpected end of JSON input").

Definition primitives : jwt.Primitives jwt.RegisteredClaims PublicKey := {|
  jwt.DecodeSegment s := Ok (bytes s);
  jwt.UnmarshalHeader := UnmarshalHeader;
  jwt.UnmarshalClaims := UnmarshalClaims;
  jwt.VerifySignature alg text sig key :=
    if String.eqb (string_of_list_byte sig) (string_of_list_byte key) then None
    else Some (errorString "crypto/rsa: verification error");
  jwt.ParseRSAPublicKeyFromPEM pem :=
    if strings.HasPrefix (string_of_list_byte pem) "-----BEGIN" then Ok pem
    else Err (errorString "invalid key: Key must be a PEM encoded PKCS1 or PKCS8 key");
  jwt.Now _ := now
|}.

Definition map_range : MapRange := {|
  range V m := map_to_list m;
  range_perm V m := reflexivity (map_to_list m)
|}.

Definition validPEMKeys : gmap string (list Byte.byte) :=
  <["key1" := bytes "-----BEGIN key1"]> (<["key2" := bytes "-----BEGIN key2"]> ∅).

Definition junkKeys : gmap string (list Byte.byte) :=
  <["badkey" := bytes "foo"]> ∅.

Definition constants : Constants := {|
  ssdTokenAudience := audience;
  ssdTokenIssuer := issuer
|}.

Definition clock : option (unit -> time.Time) := Some (fun _ => now).

(** The verifier [NewVerifier(validPEMKeys, &clock)] returns. *)
Definition verifier0 : Verifier PublicKey :=
  mkVerifier false
    (<["key1" := bytes "-----BEGIN key1"]> (<["key2" := bytes "-----BEGIN key2"]> ∅))
    (policy (constants := constants) clock).

(** Tokens of the instance: header, claims and signature segments. *)
Definition token_valid : string := "PS256/key1.valid.-----BEGIN key1".
Definition token_none : string := "none/key1.valid.-----BEGIN key1".

(** Requests of the instance. *)
Definition request (headers : http.Header) : http.Request jwt.RegisteredClaims :=
  http.mkRequest headers context.Background.

Definition request_bearer : http.Request jwt.RegisteredClaims :=
  request (<["Authorization" := ["Bearer abc.def.ghi"]]> ∅).

Definition request_two_bearers : http.Request jwt.RegisteredClaims :=
  request (<["Authorization" := ["Bearer a Bearer b"]]> ∅).

Definition request_basic : http.Request jwt.RegisteredClaims :=
  request (<["Authorization" := ["Basic abc"]]> ∅).

Definition request_bare : http.Request jwt.RegisteredClaims := request ∅.

Definition request_valid : http.Request jwt.RegisteredClaims :=
  request (<["X-Opsmx-Auth" := ["Bearer " ++ token_valid]]> ∅).

(** A downstream handler that answers [ok] when both accessors find what
    the middleware has put in the context of the request, and [no]
    otherwise. *)
Definition downstream : Handler jwt.RegisteredClaims PublicKey :=
  fun r =>
    let '(claims, found) := SSDClaimsFromContext (http.Context r) in
    let '(token, found') := SSDTokenFromContext (http.Context r) in
    on_response (http.Write (bytes
      (if found && found' && String.eqb token token_valid then "ok" else "no"))).

(** A token that declares a symmetric algorithm. *)
Definition token_hs256 : string := "HS256/key1.valid.-----BEGIN key1".

(** Tokens with an unknown kid, and with the signature of another key. *)
Definition token_unknown_kid : string := "PS256/key99.valid.-----BEGIN key1".
Definition token_wrong_key : string := "PS256/key2.valid.-----BEGIN key1".

(** The verifier of the tests: a struct literal with keys and no parser
    options. *)
Definition verifier_literal : Verifier PublicKey :=
  mkVerifier false
    (<["key1" := bytes "-----BEGIN key1"]> (<["key2" := bytes "-----BEGIN key2"]> ∅))
    [].

Definition request_authorization : http.Request jwt.RegisteredClaims :=
  request (<["Authorization" := ["Bearer " ++ token_valid]]> ∅).

(** More payloads: without an expiration time, with a not-before time an
    hour ahead, of another issuer, for another audience. *)
Definition UnmarshalClaims_more (b : list Byte.byte) : Result jwt.RegisteredClaims :=
  let name := string_of_list_byte b in
  let exp := Some (now + 60 * time.Minute)%Z in
  if String.eqb name "noexp"
  then Ok (jwt.mkRegisteredClaims issuer "user" [audience] None None None "")
  else if String.eqb name "future"
  then Ok (jwt.mkRegisteredClaims issuer "user" [audience] exp
             (Some (now + 60 * time.Minute)%Z) None "")
  else if String.eqb name "stranger"
  then Ok (jwt.mkRegisteredClaims "Mallory" "user" [audience] exp None None "")
  else if String.eqb name "elsewhere"
  then Ok (jwt.mkRegisteredClaims issuer "user" ["example.org"] exp None None "")
  else UnmarshalClaims b.

Definition primitives_more : jwt.Primitives jwt.RegisteredClaims PublicKey := {|
  jwt.DecodeSegment := jwt.DecodeSegment (Primitives := primitives);
  jwt.UnmarshalHeader := UnmarshalHeader;
  jwt.UnmarshalClaims := UnmarshalClaims_more;
  jwt.VerifySignature := jwt.VerifySignature (Primitives := primitives);
  jwt.ParseRSAPublicKeyFromPEM := jwt.ParseRSAPublicKeyFromPEM (Primitives := primitives);
  jwt.Now := jwt.Now (Primitives := primitives)
|}.

(** A key set to rotate to: key1 goes, key3 comes. *)
Definition rotatedKeys : gmap string (list Byte.byte) :=
  <["key2" := bytes "-----BEGIN key2"]> (<["key3" := bytes "-----BEGIN key3"]> ∅).

Definition request_two_headers : http.Request jwt.RegisteredClaims :=
  request (<["Authorization" := ["Bearer abc.def.ghi"]]>
             (<["X-Opsmx-Auth" := ["Bearer other"]]>
                (<["Cookie" := ["session=1"]]> ∅))).

End Sample.

(** * Properties *)

#[local] Arguments String.append !_ _ / : simpl nomatch.

(** ** strings.Split *)

Lemma HasPrefix_app (p b : string) : strings.HasPrefix (p ++ b) p = true.
Proof.
  induction p as [|c p IH]; simpl.
  - by destruct b.
  - by rewrite Ascii.eqb_refl.
Qed.

Lemma HasPrefix_inv (s p : string) :
  strings.HasPrefix s p = true -> exists b, s = (p ++ b)%string.
Proof.
  revert s. induction p as [|c p IH]; intros s Hp.
  - exists s. reflexivity.
  - destruct s as [|d s]; simpl in Hp; [done|].
    destruct (Ascii.eqb_spec d c) as [->|]; [|done].
    destruct (IH _ Hp) as [b ->]. by exists b.
Qed.

Lemma Index_unfold (s sep : string) :
  strings.Index s sep =
  if strings.HasPrefix s sep then Some 0
  else match s with
       | "" => None
       | String _ s' => S <$> strings.Index s' sep
       end.
Proof. by destruct s. Qed.

Lemma Index_Some_Contains (s sep : string) (m : nat) :
  strings.Index s sep = Some m -> strings.Contains s sep.
Proof.
  revert m. induction s as [|c s IH]; intros m; rewrite Index_unfold;
    destruct (strings.HasPrefix _ sep) eqn:Hp.
  - intros _. destruct (HasPrefix_inv _ _ Hp) as [b Hb]. by exists "", b.
  - done.
  - intros _. destruct (HasPrefix_inv _ _ Hp) as [b Hb]. by exists "", b.
  - destruct (strings.Index s sep) as [i|]; [|done]. intros _.
    destruct (IH i eq_refl) as (a & b & ->). by exists (String c a), b.
Qed.

Lemma Index_None (s sep : string) :
  strings.Index s sep = None <-> ~ strings.Contains s sep.
Proof.
  split.
  - induction s as [|c s IH]; rewrite Index_unfold;
      destruct (strings.HasPrefix _ sep) eqn:Hp; try done.
    + intros _ (a & b & Hab). destruct a; [|done]. simpl in Hab.
      by destruct sep.
    + destruct (strings.Index s sep) as [i|]; [done|]. intros _ (a & b & Hab).
      destruct a as [|d a]; simpl in Hab.
      * by rewrite Hab, HasPrefix_app in Hp.
      * injection Hab as -> ->. apply IH; [done|]. by exists a, b.
  - intros Hn. destruct (strings.Index s sep) as [m|] eqn:Hi; [|done].
    destruct Hn. by eapply Index_Some_Contains.
Qed.

Lemma length_from (n : nat) (s : string) :
  String.length (strings.from n s) = String.length s - n.
Proof.
  revert s. induction n as [|n IH]; intros [|c s]; simpl; auto.
Qed.

Lemma HasPrefix_length (s p : string) :
  strings.HasPrefix s p = true -> String.length p <= String.length s.
Proof.
  revert s. induction p as [|c p IH]; intros [|d s]; simpl; try lia; try done.
  destruct (Ascii.eqb d c); [|done]. intros Hp. specialize (IH _ Hp). lia.
Qed.

Lemma Index_bound (s sep : string) (m : nat) :
  strings.Index s sep = Some m -> m + String.length sep <= String.length s.
Proof.
  revert m. induction s as [|c s IH]; intros m; rewrite Index_unfold;
    destruct (strings.HasPrefix _ sep) eqn:Hp; try done.
  - intros [= <-]. by apply HasPrefix_length in Hp.
  - intros [= <-]. by apply HasPrefix_length in Hp.
  - destruct (strings.Index s sep) as [i|]; [|done]. intros [= <-].
    specialize (IH i eq_refl). simpl. lia.
Qed.

(** The fuel of [Count]: [String.length s] rounds are enough for a
    non-empty separator, more rounds count the same. *)
Lemma Count_loop_fuel (sep : string) (fuel : nat) (s : string) :
  sep <> "" -> String.length s <= fuel ->
  strings.Count_loop fuel s sep = strings.Count s sep.
Proof.
  intros Hsep. unfold strings.Count.
  assert (Hgen : forall n fuel1 fuel2 s,
             String.length s <= n -> String.length s <= fuel1 ->
             String.length s <= fuel2 ->
             strings.Count_loop fuel1 s sep = strings.Count_loop fuel2 s sep).
  { induction n as [|n IH]; intros fuel1 fuel2 t Hn H1 H2.
    - destruct t; [|simpl in Hn; lia].
      assert (strings.Index "" sep = None) as Hi.
      { rewrite Index_unfold. destruct sep; [done|reflexivity]. }
      destruct fuel1, fuel2; cbn [strings.Count_loop]; by rewrite ?Hi.
    - destruct fuel1 as [|fuel1], fuel2 as [|fuel2]; cbn [strings.Count_loop].
      + done.
      + destruct t; [|simpl in H1; lia].
        rewrite Index_unfold. destruct sep; [done|reflexivity].
      + destruct t; [|simpl in H2; lia].
        rewrite Index_unfold. destruct sep; [done|reflexivity].
      + destruct (strings.Index t sep) as [i|] eqn:Hi; [|done].
        f_equal. apply Index_bound in Hi.
        assert (0 < String.length sep) by (destruct sep; [done|simpl; lia]).
        apply IH; rewrite length_from; lia. }
  intros Hlen. by apply (Hgen fuel).
Qed.

Lemma Split_without (s sep : string) :
  strings.Index s sep = None -> strings.Split s sep = [s].
Proof.
  intros Hi. unfold strings.Split.
  destruct (strings.Count s sep); cbn [strings.genSplit_loop]; by rewrite ?Hi.
Qed.

Lemma Split_at (s sep : string) (m : nat) :
  sep <> "" -> strings.Index s sep = Some m ->
  strings.Split s sep =
  strings.upto m s :: strings.Split (strings.from (m + String.length sep) s) sep.
Proof.
  intros Hsep Hi. unfold strings.Split at 1. unfold strings.Count.
  pose proof (Index_bound _ _ _ Hi) as Hb.
  assert (0 < String.length sep) by (destruct sep; [done|simpl; lia]).
  destruct (String.length s) as [|n] eqn:Hlen; [lia|].
  cbn [strings.Count_loop]. rewrite Hi.
  cbn [strings.genSplit_loop]. rewrite Hi. f_equal.
  unfold strings.Split. f_equal.
  apply Count_loop_fuel; [done|]. rewrite length_from. lia.
Qed.

Lemma Split_first (s sep : string) :
  exists x l, strings.Split s sep = x :: l.
Proof.
  unfold strings.Split.
  destruct (strings.Count s sep); cbn [strings.genSplit_loop];
    [|destruct (strings.Index s sep)]; eauto.
Qed.

(** A slice of a split has a second element exactly when the separator
    occurs. *)
Lemma Split_second (s sep : string) :
  sep <> "" ->
  (strings.Split s sep !! 1%nat = None <-> ~ strings.Contains s sep).
Proof.
  intros Hsep. rewrite <- Index_None.
  destruct (strings.Index s sep) as [m|] eqn:Hi.
  - rewrite (Split_at _ _ _ Hsep Hi). split; [|done].
    by destruct (Split_first (strings.from (m + String.length sep) s) sep)
      as (x & l & ->).
  - by rewrite Split_without.
Qed.

(** ** The verifier *)

Section Properties.
Context {SsdJwtClaims PublicKey : Type}.
Context {claims_methods : jwt.Claims SsdJwtClaims}.
Context {primitives : jwt.Primitives SsdJwtClaims PublicKey}.
Context {map_range : MapRange} {constants : Constants}.

(** The parser [VerifyToken] builds from the options of [NewVerifier]. *)
Lemma NewParser_policy (timeFunc : option TimeFunc) :
  jwt.NewParser (policy timeFunc) =
  jwt.mkParser (Some [jwt.SigningMethodPS256_Name]) false
    (jwt.mkValidator (5 * time.Minute)%Z timeFunc true true
       ssdTokenAudience ssdTokenIssuer "").
Proof. by destruct timeFunc. Qed.

Lemma NewVerifier_Ok pemkeys timeFunc (v : Verifier PublicKey) :
  NewVerifier pemkeys timeFunc = Ok v ->
  parseKeys pemkeys = Ok (Keys v) /\ locked v = false /\
  parseOptions v = policy timeFunc.
Proof.
  unfold NewVerifier. destruct (parseKeys pemkeys) as [keys|err]; [|done].
  intros [= <-]. by destruct timeFunc.
Qed.

(** [SetKeys] on a free mutex: the new map is installed, or nothing
    changes. *)
Lemma SetKeys_unlocked pemkeys (v : Verifier PublicKey) :
  locked v = false ->
  SetKeys pemkeys v =
  match parseKeys pemkeys with
  | Err err => Returns (Some err, v)
  | Ok keys => Returns (None, mkVerifier false keys (parseOptions v))
  end.
Proof.
  intros Hl. unfold SetKeys. destruct (parseKeys pemkeys) as [keys|err]; [|done].
  unfold bind, defer, Lock, Unlock, bind, ret. rewrite Hl. reflexivity.
Qed.

Lemma installed_inv timeFunc (v : Verifier PublicKey) :
  installed timeFunc v -> locked v = false /\ parseOptions v = policy timeFunc.
Proof.
  induction 1 as [pemkeys v Hnew|pemkeys v err v' _ [Hl Hp] Hset].
  - by apply NewVerifier_Ok in Hnew as (_ & ? & ?).
  - rewrite (SetKeys_unlocked _ _ Hl) in Hset.
    destruct (parseKeys pemkeys); by injection Hset as <- <-.
Qed.

(** On a free mutex [KeyFunc] returns, and leaves the verifier as it
    was, the mutex free again. *)
Lemma KeyFunc_unlocked (v : Verifier PublicKey)
    (token : jwt.Token SsdJwtClaims PublicKey) :
  locked v = false -> KeyFunc token v = Returns (resolve (Keys v) token, v).
Proof.
  intros Hl. destruct v as [l keys opts]. simpl in Hl. subst l.
  unfold KeyFunc, resolve, bind, defer, Lock, Unlock, bind, ret. simpl.
  destruct (jwt.Header token !! "kid") as [[]|]; try done.
  by destruct (keys !! s).
Qed.

(** [VerifyToken] on a free mutex returns, and the verifier is as
    before. *)
Lemma VerifyToken_returns (v : Verifier PublicKey) (tokenString : string) :
  locked v = false -> exists r, VerifyToken tokenString v = Returns (r, v).
Proof.
  intros Hl. unfold VerifyToken, jwt.ParseWithClaims, bind, ret.
  destruct (jwt.ParseUnverified _ tokenString) as [[token parts]|err]; [|eauto].
  destruct (negb _); [eauto|].
  destruct (jwt.DecodeSegment _) as [signature|err]; [|eauto].
  rewrite KeyFunc_unlocked by done.
  destruct (resolve _ _) as [key|err]; [|eauto].
  cbn [jwt.Method jwt.Signature jwt.Claims_of].
  destruct (jwt.Verify _ _ _ _) as [err|]; [eauto|].
  destruct (jwt.skipClaimsValidation _); [eauto|].
  destruct (jwt.Validate _ _); eauto.
Qed.

Lemma existsb_signingMethods_PS256 :
  existsb (String.eqb "PS256") jwt.signingMethods = true.
Proof. reflexivity. Qed.

(** An authentic token passes everything up to the validation of its
    claims, which decides the result. *)
Lemma VerifyToken_authentic timeFunc (v : Verifier PublicKey) tokenString claims :
  installed timeFunc v -> authentic v tokenString claims ->
  VerifyToken tokenString v =
  Returns (match jwt.Validate (validator_of timeFunc) claims with
           | Some err => Err (jwt.newError "" jwt.ErrTokenInvalidClaims [err])
           | None => Ok claims
           end, v).
Proof.
  intros [Hl Hopts]%installed_inv
    (part0 & part1 & part2 & headerBytes & header & claimBytes & signature &
     kid & key & Hsplit & Hh1 & Hh2 & Hc1 & Hc2 & Halg & Hsig & Hkid & Hkey & Hver).
  unfold VerifyToken. rewrite Hopts, NewParser_policy.
  unfold jwt.ParseWithClaims, jwt.ParseUnverified, bind, ret.
  rewrite Hsplit, Hh1, Hh2, Hc1, Hc2, Halg.
  unfold jwt.GetSigningMethod. rewrite existsb_signingMethods_PS256.
  cbn [jwt.validMethods jwt.Method jwt.Alg jwt.SigningMethodPS256_Name existsb
       jwt.Raw jwt.Header jwt.Claims_of jwt.Valid jwt.Signature jwt.Verify
       jwt.skipClaimsValidation jwt.validator].
  rewrite String.eqb_refl. cbn [orb negb].
  change (jwt.DecodeSegment (default _ _)) with (jwt.DecodeSegment part2).
  rewrite Hsig.
  rewrite KeyFunc_unlocked by done.
  unfold resolve. cbn [jwt.Header]. rewrite Hkid, Hkey.
  change (strings.Join (take 2 [part0; part1; part2]) ".")
    with (part0 ++ "." ++ part1)%string.
  rewrite Hver. fold (validator_of timeFunc).
  by destruct (jwt.Validate _ claims).
Qed.

(** [ParseUnverified] accepts a token string only when its header
    declares a registered signing method, which becomes the method of the
    token. *)
Lemma ParseUnverified_Ok (p : jwt.Parser) tokenString
    (token : jwt.Token SsdJwtClaims PublicKey) parts :
  jwt.ParseUnverified p tokenString = Ok (token, parts) ->
  declares tokenString (jwt.Header token) /\
  jwt.Header token !! "alg" = Some (any_string (jwt.Alg (jwt.Method token))).
Proof.
  unfold jwt.ParseUnverified, declares.
  destruct (strings.Split tokenString ".") as [|part0 [|part1 [|part2 [|]]]];
    try done.
  destruct (jwt.DecodeSegment part0) as [headerBytes|] eqn:Hh1; [|done].
  destruct (jwt.UnmarshalHeader headerBytes) as [header|] eqn:Hh2; [|done].
  destruct (jwt.DecodeSegment part1) as [claimBytes|]; [|done].
  destruct (jwt.UnmarshalClaims claimBytes) as [claims|]; [|done].
  destruct (header !! "alg") as [[| alg | | | |]|] eqn:Halg; try done.
  unfold jwt.GetSigningMethod. destruct (existsb _ _); [|done].
  intros [= <- <-]. cbn. split; [|done]. by exists part0, part1, part2, headerBytes.
Qed.

(** A token string has at most one header. *)
Lemma declares_functional tokenString header1 header2 :
  declares tokenString header1 -> declares tokenString header2 -> header1 = header2.
Proof.
  intros (? & ? & ? & ? & Hs1 & Hd1 & Hu1) (? & ? & ? & ? & Hs2 & Hd2 & Hu2).
  congruence.
Qed.

(** What [VerifyToken] accepts declares PS256 in its header. *)
Lemma VerifyToken_Ok_alg timeFunc (v v' : Verifier PublicKey) tokenString claims :
  installed timeFunc v ->
  VerifyToken tokenString v = Returns (Ok claims, v') ->
  exists header,
    declares tokenString header /\ header !! "alg" = Some (any_string "PS256").
Proof.
  intros [Hl Hopts]%installed_inv. unfold VerifyToken.
  rewrite Hopts, NewParser_policy.
  unfold jwt.ParseWithClaims, bind, ret.
  destruct (jwt.ParseUnverified _ tokenString) as [[token parts]|err] eqn:Hparse;
    [|done].
  apply ParseUnverified_Ok in Hparse as [Hdecl Halg].
  cbn [jwt.validMethods existsb]. unfold jwt.SigningMethodPS256_Name.
  destruct (String.eqb_spec "PS256" (jwt.Alg (jwt.Method token))) as [Heq|];
    cbn [orb negb]; [|done].
  intros _. exists (jwt.Header token). by rewrite Halg, <- Heq.
Qed.

(** ** The validation of claims *)






(** ** The key store *)

(** [SetKeys] leaves the mutex as it found it, and the options alone. *)
Lemma SetKeys_returns pemkeys (v v' : Verifier PublicKey) err :
  SetKeys pemkeys v = Returns (err, v') ->
  locked v' = locked v /\ parseOptions v' = parseOptions v.
Proof.
  unfold SetKeys, bind, defer, Lock, Unlock, bind, ret.
  destruct (parseKeys pemkeys) as [keys|e]; [|by intros [= <- <-]].
  destruct (locked v) eqn:Hl; [done|]. cbn. by intros [= <- <-].
Qed.

Lemma parseKeys_loop_Ok (entries : list (string * list Byte.byte))
    (acc : gmap string PublicKey) :
  NoDup entries.*1 ->
  (forall name pem, (name, pem) ∈ entries ->
     exists key, jwt.ParseRSAPublicKeyFromPEM pem = Ok key) ->
  exists keys,
    parseKeys_loop entries acc = Ok keys /\
    forall name,
      keys !! name =
      match (list_to_map entries : gmap string (list Byte.byte)) !! name with
      | Some pem =>
          match jwt.ParseRSAPublicKeyFromPEM pem with
          | Ok key => Some key
          | Err _ => None
          end
      | None => acc !! name
      end.
Proof.
  revert acc. induction entries as [|[name pem] entries IH]; intros acc Hnd Hall.
  - exists acc. split; [done|]. intros name.
    change (list_to_map []) with (∅ : gmap string (list Byte.byte)).
    by rewrite lookup_empty.
  - apply NoDup_cons in Hnd as [Hfresh Hnd]. cbn [parseKeys_loop].
    destruct (Hall name pem) as [rk Hrk]; [by left|]. rewrite Hrk.
    destruct (IH (<[name:=rk]> acc) Hnd) as (keys & -> & Hkeys).
    { intros n p Hin. apply (Hall n p). by right. }
    exists keys. split; [done|]. intros name'. rewrite Hkeys.
    change (list_to_map ((name, pem) :: entries))
      with (<[name:=pem]> (list_to_map entries : gmap string (list Byte.byte))).
    destruct (decide (name = name')) as [<-|Hne].
    + rewrite (not_elem_of_list_to_map_1 _ name) by done.
      rewrite !lookup_insert_eq. by rewrite Hrk.
    + rewrite (lookup_insert_ne (list_to_map entries)) by done.
      destruct (_ !! name'); [done|]. by rewrite lookup_insert_ne.
Qed.

Lemma parseKeys_loop_Err (entries : list (string * list Byte.byte))
    (acc : gmap string PublicKey) :
  (exists name pem err,
     (name, pem) ∈ entries /\ jwt.ParseRSAPublicKeyFromPEM pem = Err err) ->
  exists name pem err,
    (name, pem) ∈ entries /\ jwt.ParseRSAPublicKeyFromPEM pem = Err err /\
    parseKeys_loop entries acc =
    Err (errorString ("unable to parse pem for keyID " ++ name ++ ": " ++ Error err)).
Proof.
  revert acc. induction entries as [|[name pem] entries IH];
    intros acc (name' & pem' & err' & Hin & Hbad).
  - by apply elem_of_nil in Hin.
  - cbn [parseKeys_loop].
    destruct (jwt.ParseRSAPublicKeyFromPEM pem) as [rk|err] eqn:Hparse.
    + destruct (IH (<[name:=rk]> acc)) as (n & p & e & Hn & Hp & ->).
      { apply elem_of_cons in Hin as [[= -> ->]|Hin]; [congruence|eauto]. }
      exists n, p, e. split; [by right|done].
    + exists name, pem, err. split; [by left|done].
Qed.

Lemma range_lookup {V} (m : gmap string V) name x :
  (name, x) ∈ range m <-> m !! name = Some x.
Proof. by rewrite (range_perm V m), elem_of_map_to_list. Qed.

(** A key set all of whose entries parse is parsed entry by entry. *)
Lemma parseKeys_Ok (pemkeys : gmap string (list Byte.byte)) :
  (forall kid pem, pemkeys !! kid = Some pem ->
     exists key, jwt.ParseRSAPublicKeyFromPEM pem = Ok key) ->
  exists keys : gmap string PublicKey,
    parseKeys pemkeys = Ok keys /\
    forall kid,
      keys !! kid =
      match pemkeys !! kid with
      | Some pem =>
          match jwt.ParseRSAPublicKeyFromPEM pem with
          | Ok key => Some key
          | Err _ => None
          end
      | None => None
      end.
Proof.
  intros Hall. unfold parseKeys.
  assert (NoDup (range pemkeys).*1) as Hnd.
  { rewrite (range_perm _ pemkeys). apply NoDup_fst_map_to_list. }
  destruct (parseKeys_loop_Ok (range pemkeys) ∅ Hnd) as (keys & -> & Hkeys).
  { intros name pem Hin. apply (Hall name). by apply range_lookup. }
  exists keys. split; [done|]. intros kid. rewrite Hkeys.
  assert ((list_to_map (range pemkeys) : gmap string (list Byte.byte)) = pemkeys)
    as ->.
  { rewrite <- (list_to_map_to_list pemkeys) at 2.
    apply list_to_map_proper; [done|]. apply range_perm. }
  by destruct (pemkeys !! kid).
Qed.

(** A key set with an entry that does not parse is refused, and the error
    names such an entry. *)
Lemma parseKeys_Err (pemkeys : gmap string (list Byte.byte)) :
  (exists kid pem err,
     pemkeys !! kid = Some pem /\ jwt.ParseRSAPublicKeyFromPEM pem = Err err) ->
  exists kid pem err,
    pemkeys !! kid = Some pem /\ jwt.ParseRSAPublicKeyFromPEM pem = Err err /\
    parseKeys pemkeys =
    Err (errorString ("unable to parse pem for keyID " ++ kid ++ ": " ++ Error err)).
Proof.
  intros (kid & pem & err & Hin & Hbad). unfold parseKeys.
  destruct (parseKeys_loop_Err (range pemkeys) ∅) as (n & p & e & Hn & Hp & ->).
  { exists kid, pem, err. by rewrite range_lookup. }
  exists n, p, e. by rewrite <- range_lookup.
Qed.

(** ** The claims about keys and tokens *)

(** C1.  A verifier made by the package rejects, with an error, every
    token whose header declares anything but the string PS256 as its
    signing algorithm: the algorithm none, a symmetric algorithm, any other
    registered or unknown name, or a value that is not a string.  The
    signature check is arbitrary here, so this holds whatever it would
    say about the signature. *)
Theorem VerifyToken_rejects_other_algorithms
    timeFunc (v : Verifier PublicKey) tokenString header :
  installed timeFunc v ->
  declares tokenString header ->
  header !! "alg" <> Some (any_string "PS256") ->
  exists err, VerifyToken tokenString v = Returns (Err err, v).
Proof.
  intros Hv Hdecl Halg.
  destruct (VerifyToken_returns v tokenString) as [[claims|err] Hrun].
  - by apply installed_inv in Hv as [? _].
  - destruct (VerifyToken_Ok_alg _ _ _ _ _ Hv Hrun) as (header' & Hdecl' & Halg').
    by rewrite (declares_functional _ _ _ Hdecl Hdecl') in Halg.
  - eauto.
Qed.

(** C2.  After [NewVerifier] on a key set all of whose entries parse, the
    key function resolves a kid of the set to the key parsed from its
    entry, and fails with the error "no such key" for any other kid. *)
Theorem NewVerifier_then_Lookup
    (pemkeys : gmap string (list Byte.byte)) timeFunc :
  (forall kid pem, pemkeys !! kid = Some pem ->
     exists key, jwt.ParseRSAPublicKeyFromPEM pem = Ok key) ->
  exists v : Verifier PublicKey,
    NewVerifier pemkeys timeFunc = Ok v /\
    forall (token : jwt.Token SsdJwtClaims PublicKey) kid,
      jwt.Header token !! "kid" = Some (any_string kid) ->
      match pemkeys !! kid with
      | Some pem =>
          exists key, jwt.ParseRSAPublicKeyFromPEM pem = Ok key /\
                      KeyFunc token v = Returns (Ok key, v)
      | None =>
          KeyFunc token v = Returns (Err (errorString ("no such key " ++ kid)), v)
      end.
Proof.
  intros Hall. destruct (parseKeys_Ok pemkeys Hall) as (keys & Hparse & Hkeys).
  unfold NewVerifier. rewrite Hparse. eexists. split; [done|].
  intros token kid Hkid. rewrite KeyFunc_unlocked by done.
  unfold resolve. rewrite Hkid. cbn [Keys]. rewrite Hkeys.
  destruct (pemkeys !! kid) as [pem|] eqn:Hpem; [|done].
  destruct (Hall kid pem Hpem) as [key Hkey]. exists key. by rewrite Hkey.
Qed.

(** C3.  A key set with an entry that does not parse makes [NewVerifier]
    fail, and [SetKeys] return an error and leave the verifier, so the
    installed keys, as it was; in both the message of the error carries
    the identifier of an entry that does not parse. *)
Theorem malformed_keys_rejected (pemkeys : gmap string (list Byte.byte)) :
  (exists kid pem err,
     pemkeys !! kid = Some pem /\ jwt.ParseRSAPublicKeyFromPEM pem = Err err) ->
  (forall timeFunc, exists kid pem err,
     pemkeys !! kid = Some pem /\ jwt.ParseRSAPublicKeyFromPEM pem = Err err /\
     NewVerifier pemkeys timeFunc =
     Err (errorString
            ("unable to parse pem for keyID " ++ kid ++ ": " ++ Error err))) /\
  (forall v : Verifier PublicKey, exists kid pem err,
     pemkeys !! kid = Some pem /\ jwt.ParseRSAPublicKeyFromPEM pem = Err err /\
     SetKeys pemkeys v =
     Returns (Some (errorString
                      ("unable to parse pem for keyID " ++ kid ++ ": " ++ Error err)),
              v)).
Proof.
  intros Hbad.
  destruct (parseKeys_Err pemkeys Hbad) as (kid & pem & err & Hin & Herr & Hparse).
  split; [intros timeFunc|intros v]; exists kid, pem, err;
    (split; [done|split; [done|]]).
  - unfold NewVerifier. by rewrite Hparse.
  - unfold SetKeys. by rewrite Hparse.
Qed.

(** C6.  On a token whose header has no kid, the key function returns the
    error "no `kid` in header"; on one whose kid is not a string, it
    returns the error "cannot convert `kid` to string", another error;
    in both cases it returns, with the verifier as before. *)
Theorem KeyFunc_kid_errors (v : Verifier PublicKey)
    (token : jwt.Token SsdJwtClaims PublicKey) :
  locked v = false ->
  (jwt.Header token !! "kid" = None ->
   KeyFunc token v = Returns (Err (errorString "no `kid` in header"), v)) /\
  (forall kidi, jwt.Header token !! "kid" = Some kidi ->
     (forall kid, kidi <> any_string kid) ->
     KeyFunc token v =
     Returns (Err (errorString "cannot convert `kid` to string"), v)) /\
  errorString "no `kid` in header" <> errorString "cannot convert `kid` to string".
Proof.
  intros Hl. rewrite KeyFunc_unlocked by done. unfold resolve.
  split; [|split].
  - by intros ->.
  - intros kidi -> Hns. destruct kidi; try done. by destruct (Hns s).
  - done.
Qed.

(** ** The claims about times *)




(** ** The claims about requests *)

(** When [VerifyToken] returns claims, the middleware hands the request
    to [next] with the claims and the token in its context. *)
Lemma MiddlewareFunc_authorized
    (next : Handler SsdJwtClaims PublicKey) (r : http.Request SsdJwtClaims)
    (st : World PublicKey) tokenStr claims v' :
  tokenFromHeaders r = Returns tokenStr ->
  VerifyToken tokenStr (verifier st) = Returns (Ok claims, v') ->
  MiddlewareFunc next r st =
  next (http.WithContext r (contextWithToken (http.Context r) (Some claims) tokenStr))
       (mkWorld v' (response st)).
Proof.
  intros Htoken Hverify.
  unfold MiddlewareFunc, bind, eval, on_verifier. by rewrite Htoken, Hverify.
Qed.

Lemma tokenFromHeaders_unfold (r : http.Request SsdJwtClaims) :
  tokenFromHeaders r =
  let authorization := http.Get (http.Header_of r) "Authorization" in
  let fallback := http.Get (http.Header_of r) "X-OpsMx-Auth" in
  if String.eqb authorization "" then
    if String.eqb fallback "" then Returns "" else extract fallback
  else extract authorization.
Proof.
  unfold tokenFromHeaders, extract. cbv zeta.
  destruct (String.eqb (http.Get (http.Header_of r) "Authorization") "") eqn:Heq;
    [done|].
  by rewrite Heq.
Qed.

Lemma extract_bearer (t : string) :
  ~ strings.Contains t "Bearer " -> extract ("Bearer " ++ t) = Returns t.
Proof.
  intros Hno%Index_None. unfold extract.
  assert (strings.Index ("Bearer " ++ t) "Bearer " = Some 0) as Hi.
  { by rewrite Index_unfold, HasPrefix_app. }
  rewrite (Split_at ("Bearer " ++ t) "Bearer " 0 ltac:(done) Hi).
  change (strings.from (0 + String.length "Bearer ") ("Bearer " ++ t)) with t.
  by rewrite Split_without.
Qed.

Lemma extract_without (auth : string) :
  ~ strings.Contains auth "Bearer " ->
  extract auth = Panics "runtime error: index out of range".
Proof.
  intros Hno. unfold extract.
  by rewrite (proj2 (Split_second auth "Bearer " ltac:(done)) Hno).
Qed.

(** [VerifyToken] refuses the empty string, whatever the verifier. *)
Lemma VerifyToken_empty (v : Verifier PublicKey) :
  VerifyToken "" v =
  Returns (Err (jwt.newError "token contains an invalid number of segments"
                             jwt.ErrTokenMalformed []), v).
Proof. reflexivity. Qed.

(** C7, as the code has it.  The token is taken from the value of the
    Authorization header, and from the value of X-OpsMx-Auth only when
    Authorization is absent or has an empty value.  When the value taken
    is [Bearer ] followed by a text in which [Bearer ] does not occur
    again, the token is that text.  When both headers are absent or empty
    the token is the empty string, which [VerifyToken] refuses as
    malformed. *)
Theorem tokenFromHeaders_bearer (r : http.Request SsdJwtClaims) (t : string) :
  ~ strings.Contains t "Bearer " ->
  let authorization := http.Get (http.Header_of r) "Authorization" in
  let fallback := http.Get (http.Header_of r) "X-OpsMx-Auth" in
  (authorization = "Bearer " ++ t -> tokenFromHeaders r = Returns t) /\
  (authorization = "" -> fallback = "Bearer " ++ t ->
   tokenFromHeaders r = Returns t) /\
  (authorization = "" -> fallback = "" ->
   tokenFromHeaders r = Returns "" /\
   forall v : Verifier PublicKey, exists err,
     VerifyToken "" v = Returns (Err err, v) /\
     Is err jwt.ErrTokenMalformed = true).
Proof.
  intros Hno authorization fallback. rewrite tokenFromHeaders_unfold.
  fold authorization fallback. cbv zeta. split; [|split].
  - intros ->. cbn [append String.eqb Ascii.eqb]. by apply extract_bearer.
  - intros -> ->. cbn [append String.eqb Ascii.eqb]. by apply extract_bearer.
  - intros -> ->. split; [done|]. intros v. rewrite VerifyToken_empty. eauto.
Qed.

(** C10.  When the header value [tokenFromHeaders] takes (Authorization,
    or X-OpsMx-Auth when Authorization is absent or empty) is not empty and
    [Bearer ] does not occur in it, the index expression is out of range:
    the function panics and returns no token. *)
Theorem tokenFromHeaders_out_of_range (r : http.Request SsdJwtClaims) :
  let authorization := http.Get (http.Header_of r) "Authorization" in
  let fallback := http.Get (http.Header_of r) "X-OpsMx-Auth" in
  (authorization <> "" /\ ~ strings.Contains authorization "Bearer ") \/
  (authorization = "" /\ fallback <> "" /\
   ~ strings.Contains fallback "Bearer ") ->
  tokenFromHeaders r = Panics "runtime error: index out of range" /\
  forall token, tokenFromHeaders r <> Returns token.
Proof.
  intros authorization fallback Hcase.
  assert (tokenFromHeaders r = Panics "runtime error: index out of range") as ->;
    [|done].
  rewrite tokenFromHeaders_unfold. fold authorization fallback. cbv zeta.
  destruct Hcase as [[Hne Hno]|(-> & Hne & Hno)].
  - destruct (String.eqb_spec authorization ""); [done|]. by apply extract_without.
  - cbn [String.eqb]. destruct (String.eqb_spec fallback ""); [done|].
    by apply extract_without.
Qed.

(** C8.  When [VerifyToken] returns an error for the token of a request,
    the middleware writes status 401 and the body [Unauthorized] and
    returns.  The result is the same for every [next] handler and every
    error: [next] is not run, no request with an enriched context is
    made, and the response does not depend on the error. *)
Theorem MiddlewareFunc_unauthorized
    (next : Handler SsdJwtClaims PublicKey) (r : http.Request SsdJwtClaims)
    (st : World PublicKey) tokenStr err v' :
  tokenFromHeaders r = Returns tokenStr ->
  VerifyToken tokenStr (verifier st) = Returns (Err err, v') ->
  MiddlewareFunc next r st =
  Returns (tt, mkWorld v'
                 (http.Write (list_byte_of_string "Unauthorized")
                    (http.WriteHeader http.StatusUnauthorized (response st)))) /\
  (http.wroteHeader (response st) = false ->
   exists w',
     MiddlewareFunc next r st = Returns (tt, mkWorld v' w') /\
     http.status w' = 401%Z /\
     http.body w' = (http.body (response st) ++ list_byte_of_string "Unauthorized")%list).
Proof.
  intros Htoken Hverify.
  assert (MiddlewareFunc next r st =
          Returns (tt, mkWorld v'
                 (http.Write (list_byte_of_string "Unauthorized")
                    (http.WriteHeader http.StatusUnauthorized (response st)))))
    as Hrun.
  { unfold MiddlewareFunc, bind, eval, on_verifier, on_response, ret.
    by rewrite Htoken, Hverify. }
  split; [done|]. intros Hfresh. eexists. split; [exact Hrun|].
  unfold http.Write, http.WriteHeader. rewrite Hfresh. by cbn.
Qed.

(** C9.  After [contextWithToken] the two accessors return the claims and
    the token that were put in, each with the flag true; on a context
    without values under keys of type [ssdContextKeyType] both return the
    flag false.  The accessors are total functions. *)
Theorem context_round_trip
    (ctx ctx0 : context.Context SsdJwtClaims) (c : option SsdJwtClaims) (t : string) :
  plain ctx0 = true ->
  SSDClaimsFromContext (contextWithToken ctx c t) = (c, true) /\
  SSDTokenFromContext (contextWithToken ctx c t) = (t, true) /\
  SSDClaimsFromContext ctx0 = (None, false) /\
  SSDTokenFromContext ctx0 = ("", false).
Proof.
  intros Hplain. split; [done|split; [done|]].
  assert (forall n, context.Value ctx0 (any_ssdContextKeyType n) = any_nil) as Hnil.
  { intros n. induction ctx0 as [|parent IH key val]; [done|].
    cbn [plain context.Value] in *. destruct key; try done; by apply IH. }
  unfold SSDClaimsFromContext, SSDTokenFromContext, ssdContextKey, ssdTokenContextKey.
  by rewrite !Hnil.
Qed.

(** * Further properties *)

(** ** Rotation and the policy *)

(** X1.  [SetKeys] with a key set all of whose entries parse, on a free mutex:
    it returns no error and frees the mutex, the options stay, and the
    key function resolves by the new set alone, the keys of the old set
    being gone. *)
Theorem SetKeys_rotates (pemkeys : gmap string (list Byte.byte))
    (v : Verifier PublicKey) :
  locked v = false ->
  (forall kid pem, pemkeys !! kid = Some pem ->
     exists key, jwt.ParseRSAPublicKeyFromPEM pem = Ok key) ->
  exists v' : Verifier PublicKey,
    SetKeys pemkeys v = Returns (None, v') /\
    locked v' = false /\ parseOptions v' = parseOptions v /\
    forall (token : jwt.Token SsdJwtClaims PublicKey) kid,
      jwt.Header token !! "kid" = Some (any_string kid) ->
      match pemkeys !! kid with
      | Some pem =>
          exists key, jwt.ParseRSAPublicKeyFromPEM pem = Ok key /\
                      KeyFunc token v' = Returns (Ok key, v')
      | None =>
          KeyFunc token v' = Returns (Err (errorString ("no such key " ++ kid)), v')
      end.
Proof.
  intros Hl Hall. destruct (parseKeys_Ok pemkeys Hall) as (keys & Hparse & Hkeys).
  rewrite (SetKeys_unlocked _ _ Hl), Hparse. eexists. split; [done|].
  split; [done|split; [done|]].
  intros token kid Hkid. rewrite KeyFunc_unlocked by done.
  unfold resolve. rewrite Hkid. cbn [Keys]. rewrite Hkeys.
  destruct (pemkeys !! kid) as [pem|] eqn:Hpem; [|done].
  destruct (Hall kid pem Hpem) as [key Hkey]. exists key. by rewrite Hkey.
Qed.

(** X2.  The policy of a verifier made by [NewVerifier] survives every call of
    [SetKeys], failed or not: the mutex is free between calls, and the
    parser [VerifyToken] builds accepts PS256 alone, validates claims,
    requires the expiration time, checks the issued-at time, and compares
    with the audience and issuer constants under a leeway of 5 minutes,
    with the time function given to [NewVerifier]. *)
Theorem installed_policy timeFunc (v : Verifier PublicKey) :
  installed timeFunc v ->
  locked v = false /\
  jwt.NewParser (parseOptions v) =
  jwt.mkParser (Some ["PS256"]) false
    (jwt.mkValidator 300000000000%Z timeFunc true true
       ssdTokenAudience ssdTokenIssuer "").
Proof.
  intros [Hl Hopts]%installed_inv. split; [done|].
  by rewrite Hopts, NewParser_policy.
Qed.

(** X3.  [VerifyToken] on a free mutex returns for every token string, without
    a panic, and leaves the verifier as it was: keys, options, and the
    mutex free again. *)
Theorem VerifyToken_keeps_verifier (v : Verifier PublicKey) (tokenString : string) :
  locked v = false ->
  exists r, VerifyToken tokenString v = Returns (r, v) /\
            forall r' v', VerifyToken tokenString v = Returns (r', v') ->
                          locked v' = false /\ Keys v' = Keys v.
Proof.
  intros Hl. destruct (VerifyToken_returns v tokenString Hl) as [r Hr].
  exists r. split; [done|]. intros r' v'. rewrite Hr. by intros [= _ <-].
Qed.

(** ** What [VerifyToken] accepts *)

Lemma ParseUnverified_inv (p : jwt.Parser) tokenString
    (token : jwt.Token SsdJwtClaims PublicKey) parts :
  jwt.ParseUnverified p tokenString = Ok (token, parts) ->
  exists part0 part1 part2 headerBytes claimBytes alg,
    strings.Split tokenString "." = [part0; part1; part2] /\
    parts = [part0; part1; part2] /\
    jwt.DecodeSegment part0 = Ok headerBytes /\
    jwt.UnmarshalHeader headerBytes = Ok (jwt.Header token) /\
    jwt.DecodeSegment part1 = Ok claimBytes /\
    jwt.UnmarshalClaims claimBytes = Ok (jwt.Claims_of token) /\
    jwt.Header token !! "alg" = Some (any_string alg) /\
    jwt.Method token = jwt.mkSigningMethod alg (jwt.VerifySignature alg).
Proof.
  unfold jwt.ParseUnverified.
  destruct (strings.Split tokenString ".") as [|part0 [|part1 [|part2 [|]]]];
    try done.
  destruct (jwt.DecodeSegment part0) as [headerBytes|] eqn:Hh1; [|done].
  destruct (jwt.UnmarshalHeader headerBytes) as [header|] eqn:Hh2; [|done].
  destruct (jwt.DecodeSegment part1) as [claimBytes|] eqn:Hc1; [|done].
  destruct (jwt.UnmarshalClaims claimBytes) as [claims|] eqn:Hc2; [|done].
  destruct (header !! "alg") as [[| alg | | | |]|] eqn:Halg; try done.
  unfold jwt.GetSigningMethod. destruct (existsb _ _); [|done].
  intros [= <- <-]. cbn. by exists part0, part1, part2, headerBytes, claimBytes, alg.
Qed.

(** Whatever [VerifyToken] accepts is authentic, and its claims pass the
    validator. *)
Lemma VerifyToken_Ok_inv timeFunc (v v' : Verifier PublicKey) tokenString claims :
  installed timeFunc v ->
  VerifyToken tokenString v = Returns (Ok claims, v') ->
  v' = v /\ authentic v tokenString claims /\
  jwt.Validate (validator_of timeFunc) claims = None.
Proof.
  intros [Hl Hopts]%installed_inv. unfold VerifyToken.
  rewrite Hopts, NewParser_policy.
  unfold jwt.ParseWithClaims, bind, ret.
  destruct (jwt.ParseUnverified _ tokenString) as [[token parts]|err] eqn:Hparse;
    [|done].
  apply ParseUnverified_inv in Hparse
    as (part0 & part1 & part2 & headerBytes & claimBytes & alg & Hsplit & ->
        & Hh1 & Hh2 & Hc1 & Hc2 & Halg & Hmethod).
  rewrite Hmethod.
  cbn [jwt.validMethods existsb jwt.Alg jwt.Verify jwt.skipClaimsValidation
       jwt.validator jwt.Claims_of jwt.Signature].
  unfold jwt.SigningMethodPS256_Name.
  destruct (String.eqb_spec "PS256" alg) as [<-|]; cbn [orb negb]; [|done].
  change (jwt.DecodeSegment (default _ _)) with (jwt.DecodeSegment part2).
  destruct (jwt.DecodeSegment part2) as [signature|] eqn:Hsig; [|done].
  rewrite KeyFunc_unlocked by done.
  destruct (resolve _ _) as [key|] eqn:Hresolve; [|done].
  change (strings.Join (take 2 [part0; part1; part2]) ".")
    with (part0 ++ "." ++ part1)%string.
  cbn [jwt.Method jwt.Verify jwt.Claims_of jwt.Signature].
  destruct (jwt.VerifySignature "PS256" (part0 ++ "." ++ part1) signature key)
    eqn:Hverify; [done|].
  fold (validator_of timeFunc).
  destruct (jwt.Validate _ _) eqn:Hvalidate; [done|].
  intros [= <- <-]. split; [done|]. split; [|done].
  unfold resolve in Hresolve. cbn [jwt.Header] in Hresolve.
  destruct (jwt.Header token !! "kid") as [[| kid | | | |]|] eqn:Hkid; try done.
  destruct (Keys v !! kid) as [key'|] eqn:Hkey; [|done].
  injection Hresolve as ->.
  by exists part0, part1, part2, headerBytes, (jwt.Header token), claimBytes,
    signature, kid, key.
Qed.

(** X4.  Whatever [VerifyToken] accepts is authentic: a well-formed token that
    declares PS256, with a kid that the verifier has a key for, and a
    signature that this key verifies; the claims returned are those of
    its payload, and the verifier is as before. *)
Theorem VerifyToken_accepts_authentic_only
    timeFunc (v v' : Verifier PublicKey) tokenString claims :
  installed timeFunc v ->
  VerifyToken tokenString v = Returns (Ok claims, v') ->
  v' = v /\ authentic v tokenString claims.
Proof.
  intros Hv Hrun. by destruct (VerifyToken_Ok_inv _ _ _ _ _ Hv Hrun) as (? & ? & _).
Qed.





(** ** How [VerifyToken] rejects *)

Lemma elem_of_collect_here (errs : list error) (e : error) :
  e ∈ jwt.collect errs (Some e).
Proof. cbn. apply elem_of_app. right. by left. Qed.

Lemma elem_of_collect_l (errs : list error) (err : option error) (e : error) :
  e ∈ errs -> e ∈ jwt.collect errs err.
Proof. destruct err; cbn; [|done]. intros ?. apply elem_of_app. by left. Qed.

Ltac collected :=
  repeat first [ apply elem_of_collect_here | apply elem_of_collect_l ].

(** An error of one of the checks is among the errors of the validator. *)
Lemma Validate_errs_member timeFunc (claims : SsdJwtClaims) (e : error) :
  jwt.verifyExpiresAt (validator_of timeFunc) claims (now_of timeFunc) true = Some e \/
  jwt.verifyNotBefore (validator_of timeFunc) claims (now_of timeFunc) false = Some e \/
  jwt.verifyIssuedAt (validator_of timeFunc) claims (now_of timeFunc) false = Some e \/
  (ssdTokenAudience <> "" /\
   jwt.verifyAudience (validator_of timeFunc) claims ssdTokenAudience true = Some e) \/
  (ssdTokenIssuer <> "" /\
   jwt.verifyIssuer (validator_of timeFunc) claims ssdTokenIssuer true = Some e) ->
  e ∈ jwt.Validate_errs (validator_of timeFunc) claims.
Proof.
  intros Hcase. unfold jwt.Validate_errs.
  change (jwt.timeFunc (validator_of timeFunc)) with timeFunc.
  change (jwt.requireExp (validator_of timeFunc)) with true.
  change (jwt.verifyIat (validator_of timeFunc)) with true.
  change (jwt.expectedAud (validator_of timeFunc)) with ssdTokenAudience.
  change (jwt.expectedIss (validator_of timeFunc)) with ssdTokenIssuer.
  change (jwt.expectedSub (validator_of timeFunc)) with "".
  cbv zeta.
  change (match timeFunc with Some f => f tt | None => jwt.Now tt end)
    with (now_of timeFunc).
  rewrite String.eqb_refl. cbn [negb].
  destruct jwt.ClaimsValidator as [validate|]; [apply elem_of_collect_l|];
    (destruct (String.eqb_spec ssdTokenIssuer "") as [Hi|Hi];
     destruct (String.eqb_spec ssdTokenAudience "") as [Ha|Ha]; cbn [negb];
     destruct Hcase as [Hc|[Hc|[Hc|[[? Hc]|[? Hc]]]]]; try done;
     rewrite Hc; collected).
Qed.

Lemma Is_invalid_claims (errs : list error) (e target : error) :
  e ∈ errs -> Is e target = true ->
  Is (jwt.newError "" jwt.ErrTokenInvalidClaims [jwt.joinErrors errs]) target = true.
Proof.
  intros Hin His. cbn. apply orb_true_iff. right. apply orb_true_iff. left.
  apply existsb_exists. exists e. split; [by apply list_elem_of_In|done].
Qed.

(** An authentic token with an error among those of the validator is
    rejected, with an error that wraps the invalid-claims error and the
    error of the check. *)
Lemma VerifyToken_invalid_claims
    timeFunc (v : Verifier PublicKey) tokenString claims (e : error) :
  installed timeFunc v -> authentic v tokenString claims ->
  e ∈ jwt.Validate_errs (validator_of timeFunc) claims ->
  exists err,
    VerifyToken tokenString v = Returns (Err err, v) /\
    Is err jwt.ErrTokenInvalidClaims = true /\
    forall target, Is e target = true -> Is err target = true.
Proof.
  intros Hv Hauth Hin.
  rewrite (VerifyToken_authentic timeFunc v tokenString claims) by done.
  unfold jwt.Validate.
  destruct (jwt.Validate_errs (validator_of timeFunc) claims) as [|e' errs];
    [by apply elem_of_nil in Hin|].
  eexists. split; [done|]. split; [done|].
  intros target. by apply Is_invalid_claims.
Qed.

(** X6.  The expiration time is required: an authentic token without one is
    rejected, with an error that wraps the invalid-claims error and the
    missing-claim error. *)
Theorem VerifyToken_requires_exp
    timeFunc (v : Verifier PublicKey) tokenString claims :
  installed timeFunc v -> authentic v tokenString claims ->
  jwt.GetExpirationTime claims = Ok None ->
  exists err,
    VerifyToken tokenString v = Returns (Err err, v) /\
    Is err jwt.ErrTokenInvalidClaims = true /\
    Is err jwt.ErrTokenRequiredClaimMissing = true.
Proof.
  intros Hv Hauth Hexp.
  destruct (VerifyToken_invalid_claims timeFunc v tokenString claims
              (jwt.newError "exp claim is required" jwt.ErrTokenRequiredClaimMissing []))
    as (err & Hrun & Hinvalid & His); [done|done| |].
  { apply Validate_errs_member. left. unfold jwt.verifyExpiresAt. by rewrite Hexp. }
  exists err. split; [done|]. split; [done|]. by apply His.
Qed.


(** X8.  With an issuer constant that is not empty, an authentic token of
    another issuer is rejected: as of an invalid issuer when it names
    one, as missing a required claim when its issuer is empty. *)
Theorem VerifyToken_checks_issuer
    timeFunc (v : Verifier PublicKey) tokenString claims iss :
  installed timeFunc v -> authentic v tokenString claims ->
  ssdTokenIssuer <> "" ->
  jwt.GetIssuer claims = Ok iss -> iss <> ssdTokenIssuer ->
  exists err,
    VerifyToken tokenString v = Returns (Err err, v) /\
    Is err jwt.ErrTokenInvalidClaims = true /\
    (iss <> "" -> Is err jwt.ErrTokenInvalidIssuer = true) /\
    (iss = "" -> Is err jwt.ErrTokenRequiredClaimMissing = true).
Proof.
  intros Hv Hauth Hconst Hiss Hne.
  destruct (String.eqb_spec iss "") as [->|Hnonempty].
  - destruct (VerifyToken_invalid_claims timeFunc v tokenString claims
                (jwt.newError "iss claim is required" jwt.ErrTokenRequiredClaimMissing []))
      as (err & Hrun & Hinvalid & His); [done|done| |].
    { apply Validate_errs_member. do 4 right. split; [done|].
      unfold jwt.verifyIssuer. by rewrite Hiss. }
    exists err. split; [done|]. split; [done|]. split; [done|].
    intros _. by apply His.
  - destruct (VerifyToken_invalid_claims timeFunc v tokenString claims
                jwt.ErrTokenInvalidIssuer)
      as (err & Hrun & Hinvalid & His); [done|done| |].
    { apply Validate_errs_member. do 4 right. split; [done|].
      unfold jwt.verifyIssuer. rewrite Hiss.
      destruct (String.eqb_spec iss ""); [done|].
      by destruct (String.eqb_spec iss ssdTokenIssuer). }
    exists err. split; [done|]. split; [done|]. split; [|done].
    intros _. by apply His.
Qed.

Lemma audience_loop_absent (aud : list string) (cmp : string) acc :
  cmp ∉ aud -> (jwt.audience_loop aud cmp false acc).1 = false.
Proof.
  revert acc. induction aud as [|a aud IH]; intros acc Hnot;
    cbn [jwt.audience_loop]; [done|].
  apply not_elem_of_cons in Hnot as [Hne Hnot].
  destruct (String.eqb_spec a cmp); [congruence|]. by apply IH.
Qed.

(** X9.  With an audience constant that is not empty, an authentic token whose
    audiences do not include it is rejected: as of an invalid audience,
    or as missing a required claim when it names no audience. *)
Theorem VerifyToken_checks_audience
    timeFunc (v : Verifier PublicKey) tokenString claims aud :
  installed timeFunc v -> authentic v tokenString claims ->
  ssdTokenAudience <> "" ->
  jwt.GetAudience claims = Ok aud -> ssdTokenAudience ∉ aud ->
  exists err,
    VerifyToken tokenString v = Returns (Err err, v) /\
    Is err jwt.ErrTokenInvalidClaims = true /\
    (Is err jwt.ErrTokenInvalidAudience = true \/
     Is err jwt.ErrTokenRequiredClaimMissing = true).
Proof.
  intros Hv Hauth Hconst Haud Hnot.
  assert (exists e,
            jwt.verifyAudience (validator_of timeFunc) claims ssdTokenAudience true
            = Some e /\
            (Is e jwt.ErrTokenInvalidAudience = true \/
             Is e jwt.ErrTokenRequiredClaimMissing = true)) as (e & He & Hkind).
  { unfold jwt.verifyAudience. rewrite Haud.
    destruct (List.length aud =? 0)%nat; [eexists; split; [done|by right]|].
    pose proof (audience_loop_absent aud ssdTokenAudience "" Hnot) as Hloop.
    destruct (jwt.audience_loop aud ssdTokenAudience false "")
      as [result stringClaims]. cbn in Hloop. subst result.
    destruct (String.eqb stringClaims ""); eexists; (split; [done|]);
      [by right|by left]. }
  destruct (VerifyToken_invalid_claims timeFunc v tokenString claims e)
    as (err & Hrun & Hinvalid & His); [done|done| |].
  { apply Validate_errs_member. do 3 right. left. by split. }
  exists err. split; [done|]. split; [done|].
  destruct Hkind as [?|?]; [left|right]; by apply His.
Qed.

(** [VerifyToken] on a token with a PS256 envelope: the signature
    segment, the key, the signature and the claims decide, in this
    order. *)
Lemma VerifyToken_envelope timeFunc (v : Verifier PublicKey)
    tokenString part0 part1 part2 header claims :
  installed timeFunc v ->
  envelope tokenString part0 part1 part2 header claims ->
  header !! "alg" = Some (any_string "PS256") ->
  VerifyToken tokenString v =
  Returns
    (match jwt.DecodeSegment part2 with
     | Err err =>
         Err (jwt.newError "could not base64 decode signature" jwt.ErrTokenMalformed [err])
     | Ok signature =>
         match
           resolve (Keys v)
             (jwt.mkToken tokenString
                (jwt.mkSigningMethod "PS256" (jwt.VerifySignature "PS256"))
                header claims signature false)
         with
         | Err err =>
             Err (jwt.newError "error while executing keyfunc"
                               jwt.ErrTokenUnverifiable [err])
         | Ok key =>
             match jwt.VerifySignature "PS256" (part0 ++ "." ++ part1) signature key with
             | Some err => Err (jwt.newError "" jwt.ErrTokenSignatureInvalid [err])
             | None =>
                 match jwt.Validate (validator_of timeFunc) claims with
                 | Some err => Err (jwt.newError "" jwt.ErrTokenInvalidClaims [err])
                 | None => Ok claims
                 end
             end
         end
     end, v).
Proof.
  intros [Hl Hopts]%installed_inv
    (headerBytes & claimBytes & Hsplit & Hh1 & Hh2 & Hc1 & Hc2) Halg.
  unfold VerifyToken. rewrite Hopts, NewParser_policy.
  unfold jwt.ParseWithClaims, jwt.ParseUnverified, bind, ret.
  rewrite Hsplit, Hh1, Hh2, Hc1, Hc2, Halg.
  unfold jwt.GetSigningMethod. rewrite existsb_signingMethods_PS256.
  cbn [jwt.validMethods jwt.Method jwt.Alg jwt.SigningMethodPS256_Name existsb
       jwt.Raw jwt.Header jwt.Claims_of jwt.Valid jwt.Signature jwt.Verify
       jwt.skipClaimsValidation jwt.validator].
  rewrite String.eqb_refl. cbn [orb negb].
  change (jwt.DecodeSegment (default _ _)) with (jwt.DecodeSegment part2).
  destruct (jwt.DecodeSegment part2) as [signature|err]; [|done].
  rewrite KeyFunc_unlocked by done.
  destruct (resolve _ _) as [key|err]; [|done].
  change (strings.Join (take 2 [part0; part1; part2]) ".")
    with (part0 ++ "." ++ part1)%string.
  destruct (jwt.VerifySignature "PS256" (part0 ++ "." ++ part1) signature key);
    [done|].
  fold (validator_of timeFunc). by destruct (jwt.Validate _ claims).
Qed.

(** X10.  A PS256 token whose kid the verifier has no key for, or whose header
    has no kid, is rejected as unverifiable, the error wrapping that of
    the key function; the signature and the claims are not looked at. *)
Theorem VerifyToken_key_not_resolved timeFunc (v : Verifier PublicKey)
    tokenString part0 part1 part2 header claims signature :
  installed timeFunc v ->
  envelope tokenString part0 part1 part2 header claims ->
  header !! "alg" = Some (any_string "PS256") ->
  jwt.DecodeSegment part2 = Ok signature ->
  (forall kid, header !! "kid" = Some (any_string kid) -> Keys v !! kid = None ->
     VerifyToken tokenString v =
     Returns (Err (jwt.newError "error while executing keyfunc"
                     jwt.ErrTokenUnverifiable
                     [errorString ("no such key " ++ kid)]), v)) /\
  (header !! "kid" = None ->
     VerifyToken tokenString v =
     Returns (Err (jwt.newError "error while executing keyfunc"
                     jwt.ErrTokenUnverifiable
                     [errorString "no `kid` in header"]), v)).
Proof.
  intros Hv Henv Halg Hsig.
  rewrite (VerifyToken_envelope timeFunc v tokenString part0 part1 part2 header claims)
    by done.
  rewrite Hsig. unfold resolve. cbn [jwt.Header].
  split; [intros kid -> ->|intros ->]; done.
Qed.

(** X11.  A PS256 token whose signature the key under its kid does not verify
    is rejected as of an invalid signature, whatever its claims. *)
Theorem VerifyToken_bad_signature timeFunc (v : Verifier PublicKey)
    tokenString part0 part1 part2 header claims signature kid key err :
  installed timeFunc v ->
  envelope tokenString part0 part1 part2 header claims ->
  header !! "alg" = Some (any_string "PS256") ->
  jwt.DecodeSegment part2 = Ok signature ->
  header !! "kid" = Some (any_string kid) ->
  Keys v !! kid = Some key ->
  jwt.VerifySignature "PS256" (part0 ++ "." ++ part1) signature key = Some err ->
  VerifyToken tokenString v =
  Returns (Err (jwt.newError "" jwt.ErrTokenSignatureInvalid [err]), v).
Proof.
  intros Hv Henv Halg Hsig Hkid Hkey Hverify.
  rewrite (VerifyToken_envelope timeFunc v tokenString part0 part1 part2 header claims)
    by done.
  rewrite Hsig. unfold resolve. cbn [jwt.Header]. by rewrite Hkid, Hkey, Hverify.
Qed.

(** X12.  The error for another algorithm: a token that declares a registered
    signing method other than PS256 is rejected as of an invalid
    signature, with the message that the signing method is invalid; one
    that declares a name that is not registered is rejected as
    unverifiable.  Neither the keys nor the signature are looked at. *)
Theorem VerifyToken_algorithm_error timeFunc (v : Verifier PublicKey)
    tokenString part0 part1 part2 header claims alg :
  installed timeFunc v ->
  envelope tokenString part0 part1 part2 header claims ->
  header !! "alg" = Some (any_string alg) ->
  alg <> "PS256" ->
  VerifyToken tokenString v =
  Returns
    (Err (if existsb (String.eqb alg) jwt.signingMethods
          then jwt.newError ("signing method " ++ alg ++ " is invalid")
                            jwt.ErrTokenSignatureInvalid []
          else jwt.newError "signing method (alg) is unavailable"
                            jwt.ErrTokenUnverifiable []), v).
Proof.
  intros [Hl Hopts]%installed_inv
    (headerBytes & claimBytes & Hsplit & Hh1 & Hh2 & Hc1 & Hc2) Halg Hne.
  unfold VerifyToken. rewrite Hopts, NewParser_policy.
  unfold jwt.ParseWithClaims, jwt.ParseUnverified, bind, ret.
  rewrite Hsplit, Hh1, Hh2, Hc1, Hc2, Halg.
  unfold jwt.GetSigningMethod.
  destruct (existsb (String.eqb alg) jwt.signingMethods); [|done].
  cbn [jwt.validMethods jwt.Method jwt.Alg existsb].
  unfold jwt.SigningMethodPS256_Name.
  by destruct (String.eqb_spec "PS256" alg).
Qed.

(** X13.  A string that does not split at the dots into three segments is
    rejected as malformed by every verifier, whatever its state. *)
Theorem VerifyToken_segments (v : Verifier PublicKey) (tokenString : string) :
  List.length (strings.Split tokenString ".") <> 3 ->
  VerifyToken tokenString v =
  Returns (Err (jwt.newError "token contains an invalid number of segments"
                             jwt.ErrTokenMalformed []), v).
Proof.
  intros Hlen. unfold VerifyToken, jwt.ParseWithClaims, jwt.ParseUnverified, bind, ret.
  by destruct (strings.Split tokenString ".") as [|part0 [|part1 [|part2 [|]]]].
Qed.


(** ** More about requests *)

Lemma from_app (p b : string) : strings.from (String.length p) (p ++ b) = b.
Proof. induction p as [|c p IH]; [by destruct b|done]. Qed.

Lemma append_nil_r (s : string) : (s ++ "")%string = s.
Proof. induction s as [|c s IH]; [done|]. cbn. by rewrite IH. Qed.

Lemma Index_decompose (s sep : string) (m : nat) :
  strings.Index s sep = Some m ->
  s = (strings.upto m s ++ sep ++ strings.from (m + String.length sep) s)%string.
Proof.
  revert m. induction s as [|c s IH]; intros m; rewrite Index_unfold;
    destruct (strings.HasPrefix _ sep) eqn:Hp.
  - intros [= <-]. by destruct sep.
  - done.
  - intros [= <-]. destruct (HasPrefix_inv _ _ Hp) as [b Hb].
    rewrite Hb. cbn [strings.upto Nat.add]. by rewrite from_app.
  - destruct (strings.Index s sep) as [i|]; [|done]. intros [= <-].
    cbn [strings.upto strings.from Nat.add append]. f_equal. by apply IH.
Qed.

Lemma HasPrefix_upto (n : nat) (s p : string) :
  strings.HasPrefix (strings.upto n s) p = true -> strings.HasPrefix s p = true.
Proof.
  revert n s. induction p as [|c p IH]; intros n s; [by destruct s, n|].
  destruct n as [|n], s as [|d s]; cbn; try done.
  destruct (Ascii.eqb d c); [|done]. apply IH.
Qed.

(** Before its first instance in [s], the separator does not occur. *)
Lemma Index_upto (s sep : string) (m : nat) :
  sep <> "" -> strings.Index s sep = Some m ->
  strings.Index (strings.upto m s) sep = None.
Proof.
  intros Hsep. revert m. induction s as [|c s IH]; intros m;
    rewrite Index_unfold; destruct (strings.HasPrefix _ sep) eqn:Hp.
  - intros [= <-]. by destruct sep.
  - done.
  - intros [= <-]. by destruct sep.
  - destruct (strings.Index s sep) as [i|] eqn:Hi; [|done]. intros [= <-].
    cbn [strings.upto]. rewrite Index_unfold.
    destruct (strings.HasPrefix (String c (strings.upto i s)) sep) eqn:Hp'.
    + apply (HasPrefix_upto (S i) (String c s)) in Hp'. congruence.
    + by rewrite (IH i).
Qed.

(** What [extract] returns lies between the first instance of [Bearer ]
    and the next one, or the end. *)
Lemma lookup_second {A} (x y : A) (l : list A) : (x :: y :: l) !! 1%nat = Some y.
Proof. reflexivity. Qed.

Lemma extract_shape (auth t : string) :
  extract auth = Returns t ->
  exists a rest,
    auth = (a ++ "Bearer " ++ t ++ rest)%string /\
    ~ strings.Contains a "Bearer " /\ ~ strings.Contains t "Bearer " /\
    (rest = "" \/ strings.HasPrefix rest "Bearer " = true).
Proof.
  assert (Hsep : "Bearer " <> "") by done.
  unfold extract.
  destruct (strings.Index auth "Bearer ") as [m|] eqn:Hi;
    [|by rewrite Split_without].
  rewrite (Split_at auth "Bearer " m Hsep Hi).
  set (after := strings.from (m + String.length "Bearer ") auth).
  pose proof (Index_decompose _ _ _ Hi) as Hauth. fold after in Hauth.
  pose proof (Index_upto _ _ _ Hsep Hi) as Hbefore%Index_None.
  destruct (strings.Index after "Bearer ") as [m'|] eqn:Hi'.
  - rewrite (Split_at after "Bearer " m' Hsep Hi'), lookup_second.
    intros Heq. assert (t = strings.upto m' after) as -> by congruence. clear Heq.
    pose proof (Index_decompose _ _ _ Hi') as Hafter.
    pose proof (Index_upto _ _ _ Hsep Hi') as Ht%Index_None.
    exists (strings.upto m auth),
      ("Bearer " ++ strings.from (m' + String.length "Bearer ") after)%string.
    split; [by rewrite <- Hafter|]. split; [done|]. split; [done|].
    right. apply HasPrefix_app.
  - rewrite (Split_without after "Bearer " Hi'), lookup_second.
    intros Heq. assert (t = after) as -> by congruence. clear Heq.
    exists (strings.upto m auth), "". rewrite append_nil_r.
    split; [done|]. split; [done|]. split; [by apply Index_None|]. by left.
Qed.

(** X15.  The shape of the token [tokenFromHeaders] returns for the header
    value it takes: the value is some text without [Bearer ], then
    [Bearer ], then the token, then nothing more or [Bearer ] again; the
    token itself never holds [Bearer ].  (For an empty value the token
    is empty.) *)
Theorem tokenFromHeaders_token_shape (r : http.Request SsdJwtClaims) (t : string) :
  tokenFromHeaders r = Returns t ->
  let authorization := http.Get (http.Header_of r) "Authorization" in
  let fallback := http.Get (http.Header_of r) "X-OpsMx-Auth" in
  let auth := if String.eqb authorization "" then fallback else authorization in
  (auth = "" /\ t = "") \/
  exists a rest,
    auth = (a ++ "Bearer " ++ t ++ rest)%string /\
    ~ strings.Contains a "Bearer " /\ ~ strings.Contains t "Bearer " /\
    (rest = "" \/ strings.HasPrefix rest "Bearer " = true).
Proof.
  rewrite tokenFromHeaders_unfold. cbv zeta.
  destruct (String.eqb (http.Get (http.Header_of r) "Authorization") "").
  - destruct (String.eqb_spec (http.Get (http.Header_of r) "X-OpsMx-Auth") "")
      as [->|_].
    + intros [= <-]. by left.
    + intros Hx. right. by apply extract_shape.
  - intros Hx. right. by apply extract_shape.
Qed.

(** X16.  [tokenFromHeaders] reads two entries of the header map and nothing
    else of the request: the first value under [Authorization] and,
    when that is absent or empty, the first value under [X-Opsmx-Auth],
    the canonical form of the name in the source.  Requests that agree
    on these get the same result; when the Authorization value is not
    empty the other header does not matter. *)
Theorem tokenFromHeaders_reads_two_headers (r r' : http.Request SsdJwtClaims) :
  http.Header_of r !! "Authorization" = http.Header_of r' !! "Authorization" ->
  http.Get (http.Header_of r) "Authorization" <> "" \/
  http.Header_of r !! "X-Opsmx-Auth" = http.Header_of r' !! "X-Opsmx-Auth" ->
  tokenFromHeaders r = tokenFromHeaders r'.
Proof.
  intros Hauth Hcase. rewrite !tokenFromHeaders_unfold. cbv zeta.
  assert (http.Get (http.Header_of r') "Authorization" =
          http.Get (http.Header_of r) "Authorization") as ->.
  { unfold http.Get.
    change (http.CanonicalMIMEHeaderKey "Authorization") with "Authorization".
    by rewrite Hauth. }
  destruct (String.eqb_spec (http.Get (http.Header_of r) "Authorization") "")
    as [Hempty|Hne]; [|done].
  destruct Hcase as [?|Hfallback]; [done|].
  assert (http.Get (http.Header_of r') "X-OpsMx-Auth" =
          http.Get (http.Header_of r) "X-OpsMx-Auth") as ->; [|done].
  unfold http.Get.
  change (http.CanonicalMIMEHeaderKey "X-OpsMx-Auth") with "X-Opsmx-Auth".
  by rewrite Hfallback.
Qed.


(** X18.  A request without a value in either header gets the 401 answer from
    every verifier, whatever its keys, options and mutex, and [next] is
    not run. *)
Theorem MiddlewareFunc_no_headers
    (next : Handler SsdJwtClaims PublicKey) (r : http.Request SsdJwtClaims)
    (st : World PublicKey) :
  http.Get (http.Header_of r) "Authorization" = "" ->
  http.Get (http.Header_of r) "X-OpsMx-Auth" = "" ->
  MiddlewareFunc next r st =
  Returns (tt, mkWorld (verifier st)
                 (http.Write (list_byte_of_string "Unauthorized")
                    (http.WriteHeader http.StatusUnauthorized (response st)))).
Proof.
  intros Hauth Hfallback.
  unfold MiddlewareFunc, bind, eval, on_verifier, on_response, ret.
  rewrite tokenFromHeaders_unfold, Hauth, Hfallback. cbn [String.eqb].
  by rewrite VerifyToken_empty.
Qed.

(** X19.  When [VerifyToken] returns claims for the token of a request, the
    middleware writes nothing and runs [next] on a request with the same
    headers, from whose context the two accessors return these claims and
    this token, and every value under a key of another type is as in the
    context of the request. *)
Theorem MiddlewareFunc_passes_claims
    (next : Handler SsdJwtClaims PublicKey) (r : http.Request SsdJwtClaims)
    (st : World PublicKey) tokenStr claims v' :
  tokenFromHeaders r = Returns tokenStr ->
  VerifyToken tokenStr (verifier st) = Returns (Ok claims, v') ->
  exists r',
    MiddlewareFunc next r st = next r' (mkWorld v' (response st)) /\
    http.Header_of r' = http.Header_of r /\
    SSDClaimsFromContext (http.Context r') = (Some claims, true) /\
    SSDTokenFromContext (http.Context r') = (tokenStr, true) /\
    forall key, (forall n, key <> any_ssdContextKeyType n) ->
      context.Value (http.Context r') key = context.Value (http.Context r) key.
Proof.
  intros Htoken Hverify. eexists. split.
  { by apply MiddlewareFunc_authorized. }
  split; [done|split; [done|split; [done|]]].
  intros key Hkey. cbn. by destruct key; try done; destruct (Hkey n).
Qed.

(** X20.  The two values of [contextWithToken] and the values of other code do
    not disturb each other: the values under keys of other types are
    those of the context given, and a value added later under such a key
    leaves what the two accessors return. *)
Theorem contextWithToken_other_keys
    (ctx : context.Context SsdJwtClaims) (c : option SsdJwtClaims) (t : string)
    (key val : any SsdJwtClaims) :
  (forall n, key <> any_ssdContextKeyType n) ->
  context.Value (contextWithToken ctx c t) key = context.Value ctx key /\
  SSDClaimsFromContext (context.WithValue ctx key val) = SSDClaimsFromContext ctx /\
  SSDTokenFromContext (context.WithValue ctx key val) = SSDTokenFromContext ctx.
Proof.
  intros Hkey. split; [|split].
  - cbn. by destruct key; try done; destruct (Hkey n).
  - unfold SSDClaimsFromContext. cbn. by destruct key; try done; destruct (Hkey n).
  - unfold SSDTokenFromContext. cbn. by destruct key; try done; destruct (Hkey n).
Qed.

End Properties.

(** ** The small instance at work *)

Section Instance.
#[local] Existing Instance Sample.primitives.
#[local] Existing Instance Sample.map_range.
#[local] Existing Instance Sample.constants.

Example canonical_fallback :
  http.CanonicalMIMEHeaderKey "X-OpsMx-Auth" = "X-Opsmx-Auth".
Proof. reflexivity. Qed.

Example Split_bearer :
  strings.Split "Bearer abc.def.ghi" "Bearer " = [""; "abc.def.ghi"].
Proof. reflexivity. Qed.

Example Split_segments : strings.Split "a.b.c" "." = ["a"; "b"; "c"].
Proof. reflexivity. Qed.

Example Split_empty : strings.Split "" "." = [""].
Proof. reflexivity. Qed.


Example VerifyToken_expired3 :
  VerifyToken "PS256/key1.expired3.-----BEGIN key1" Sample.verifier0 =
  Returns (Ok (Sample.claims (Some (Sample.now - 3 * time.Minute)%Z)
                             (Some (Sample.now - 60 * time.Minute)%Z)),
           Sample.verifier0).
Proof. vm_compute. reflexivity. Qed.

Example VerifyToken_wrong_key :
  exists err,
    VerifyToken "PS256/key2.valid.-----BEGIN key1" Sample.verifier0 =
    Returns (Err err, Sample.verifier0) /\
    Is err jwt.ErrTokenSignatureInvalid = true.
Proof. eexists. vm_compute. split; reflexivity. Qed.

Example VerifyToken_unknown_kid :
  exists err,
    VerifyToken "PS256/key99.valid.-----BEGIN key1" Sample.verifier0 =
    Returns (Err err, Sample.verifier0) /\
    Is err jwt.ErrTokenUnverifiable = true.
Proof. eexists. vm_compute. split; reflexivity. Qed.

Example SetKeys_junk :
  exists err,
    SetKeys Sample.junkKeys Sample.verifier0 = Returns (Some err, Sample.verifier0).
Proof. eexists. vm_compute. reflexivity. Qed.

Example MiddlewareFunc_valid :
  MiddlewareFunc Sample.downstream Sample.request_valid
    (mkWorld Sample.verifier0 http.fresh) =
  Returns (tt, mkWorld Sample.verifier0
                 (http.mkResponse true 200 (list_byte_of_string "ok"))).
Proof. vm_compute. reflexivity. Qed.

Example VerifyToken_valid :
  exists claims : jwt.RegisteredClaims,
    VerifyToken Sample.token_valid Sample.verifier0 =
    Returns (Ok claims, Sample.verifier0).
Proof. eexists. vm_compute. reflexivity. Qed.

Lemma validPEMKeys_parse kid pem :
  Sample.validPEMKeys !! kid = Some pem ->
  exists key, jwt.ParseRSAPublicKeyFromPEM pem = Ok key.
Proof.
  unfold Sample.validPEMKeys.
  intros [[_ <-]|[_ [[_ <-]|[_ Hnone]]%lookup_insert_Some]]%lookup_insert_Some.
  - by eexists.
  - by eexists.
  - by rewrite lookup_empty in Hnone.
Qed.



(** C1, on the token of the instance that declares the algorithm none:
    the signature check of the instance accepts its signature, and the
    token is rejected. *)
Lemma VerifyToken_rejects_other_algorithms_witness :
  exists err,
    VerifyToken Sample.token_none Sample.verifier0 =
    Returns (Err err, Sample.verifier0).
Proof.
  apply (VerifyToken_rejects_other_algorithms Sample.clock Sample.verifier0
           Sample.token_none
           (<["alg" := any_string "none"]> (<["kid" := any_string "key1"]> ∅))).
  - apply (installed_new _ Sample.validPEMKeys). vm_compute. reflexivity.
  - exists "none/key1", "valid", "-----BEGIN key1", (Sample.bytes "none/key1").
    vm_compute. repeat split; reflexivity.
  - vm_compute. discriminate.
Defined.

(** C2, on the two keys of the instance. *)
Lemma NewVerifier_then_Lookup_witness :
  exists v : Verifier Sample.PublicKey,
    NewVerifier Sample.validPEMKeys Sample.clock = Ok v /\
    forall (token : jwt.Token jwt.RegisteredClaims Sample.PublicKey) kid,
      jwt.Header token !! "kid" = Some (any_string kid) ->
      match Sample.validPEMKeys !! kid with
      | Some pem =>
          exists key, jwt.ParseRSAPublicKeyFromPEM pem = Ok key /\
                      KeyFunc token v = Returns (Ok key, v)
      | None =>
          KeyFunc token v = Returns (Err (errorString ("no such key " ++ kid)), v)
      end.
Proof.
  apply (NewVerifier_then_Lookup Sample.validPEMKeys Sample.clock).
  exact validPEMKeys_parse.
Defined.

(** C3, on the junk key of the tests. *)
Lemma malformed_keys_rejected_witness :
  (forall timeFunc, exists kid pem err,
     Sample.junkKeys !! kid = Some pem /\
     jwt.ParseRSAPublicKeyFromPEM pem = Err err /\
     NewVerifier Sample.junkKeys timeFunc =
     Err (errorString
            ("unable to parse pem for keyID " ++ kid ++ ": " ++ Error err))) /\
  (forall v : Verifier Sample.PublicKey, exists kid pem err,
     Sample.junkKeys !! kid = Some pem /\
     jwt.ParseRSAPublicKeyFromPEM pem = Err err /\
     SetKeys Sample.junkKeys v =
     Returns (Some (errorString
                      ("unable to parse pem for keyID " ++ kid ++ ": " ++ Error err)),
              v)).
Proof.
  apply (malformed_keys_rejected Sample.junkKeys).
  exists "badkey", (Sample.bytes "foo"),
    (errorString "invalid key: Key must be a PEM encoded PKCS1 or PKCS8 key").
  vm_compute. split; reflexivity.
Defined.




(** C6, on a token with an empty header. *)
Lemma KeyFunc_kid_errors_witness :
  KeyFunc (jwt.mkToken "" (jwt.mkSigningMethod "PS256" (jwt.VerifySignature "PS256"))
             ∅ (Sample.claims None None) [] false)
          Sample.verifier0 =
  Returns (Err (errorString "no `kid` in header"), Sample.verifier0).
Proof.
  apply (KeyFunc_kid_errors Sample.verifier0); reflexivity.
Defined.

(** C7, as stated, fails on a request whose Authorization value has the
    scheme twice: the value is [Bearer ] followed by [a Bearer b], and the
    token taken from it is [a ] with a space, not [a Bearer b]. *)
Lemma tokenFromHeaders_stops_at_second_bearer :
  http.Get (http.Header_of Sample.request_two_bearers) "Authorization" =
    "Bearer " ++ "a Bearer b" /\
  tokenFromHeaders Sample.request_two_bearers = Returns "a " /\
  tokenFromHeaders Sample.request_two_bearers <> Returns "a Bearer b".
Proof. vm_compute. repeat split. discriminate. Qed.

(** C7 as amended, on a request with a bearer token. *)
Lemma tokenFromHeaders_bearer_witness :
  tokenFromHeaders Sample.request_bearer = Returns "abc.def.ghi".
Proof.
  refine (proj1 (tokenFromHeaders_bearer (PublicKey := Sample.PublicKey)
                   Sample.request_bearer "abc.def.ghi" _) _).
  - apply Index_None. vm_compute. reflexivity.
  - vm_compute. reflexivity.
Defined.

(** C8, on a request without headers and a handler that would panic if
    it ran. *)
Lemma MiddlewareFunc_unauthorized_witness :
  MiddlewareFunc (fun _ _ => Panics "next") Sample.request_bare
    (mkWorld Sample.verifier0 http.fresh) =
  Returns (tt, mkWorld Sample.verifier0
                 (http.mkResponse true 401 (list_byte_of_string "Unauthorized"))).
Proof.
  apply (MiddlewareFunc_unauthorized (fun _ _ => Panics "next") Sample.request_bare
           (mkWorld Sample.verifier0 http.fresh) ""
           (jwt.newError "token contains an invalid number of segments"
                         jwt.ErrTokenMalformed [])
           Sample.verifier0).
  - vm_compute. reflexivity.
  - vm_compute. reflexivity.
Defined.

(** C9, on the background context. *)
Lemma context_round_trip_witness :
  SSDClaimsFromContext
    (contextWithToken context.Background (Some (Sample.claims None None)) "abc") =
    (Some (Sample.claims None None), true) /\
  SSDTokenFromContext
    (contextWithToken context.Background (Some (Sample.claims None None)) "abc") =
    ("abc", true) /\
  SSDClaimsFromContext (context.Background (C := jwt.RegisteredClaims)) = (None, false) /\
  SSDTokenFromContext (context.Background (C := jwt.RegisteredClaims)) = ("", false).
Proof.
  apply (context_round_trip context.Background context.Background
           (Some (Sample.claims None None)) "abc").
  reflexivity.
Defined.

(** C10, on a request with another scheme. *)
Lemma tokenFromHeaders_out_of_range_witness :
  tokenFromHeaders Sample.request_basic = Panics "runtime error: index out of range" /\
  forall token, tokenFromHeaders Sample.request_basic <> Returns token.
Proof.
  apply (tokenFromHeaders_out_of_range Sample.request_basic).
  left. split.
  - vm_compute. discriminate.
  - apply Index_None. vm_compute. reflexivity.
Defined.

End Instance.

(** ** The further properties on the instance *)

Section More.
#[local] Existing Instance Sample.primitives_more.
#[local] Existing Instance Sample.map_range.
#[local] Existing Instance Sample.constants.

Lemma verifier0_installed_more : installed Sample.clock Sample.verifier0.
Proof. apply (installed_new _ Sample.validPEMKeys). vm_compute. reflexivity. Qed.

Lemma rotatedKeys_parse kid pem :
  Sample.rotatedKeys !! kid = Some pem ->
  exists key, jwt.ParseRSAPublicKeyFromPEM pem = Ok key.
Proof.
  unfold Sample.rotatedKeys.
  intros [[_ <-]|[_ [[_ <-]|[_ Hnone]]%lookup_insert_Some]]%lookup_insert_Some.
  - by eexists.
  - by eexists.
  - by rewrite lookup_empty in Hnone.
Qed.

Lemma token_envelope (head name : string) header (claims : jwt.RegisteredClaims) :
  Sample.UnmarshalHeader (Sample.bytes head) = Ok header ->
  Sample.UnmarshalClaims_more (Sample.bytes name) = Ok claims ->
  strings.Split (head ++ "." ++ name ++ ".-----BEGIN key1") "." =
    [head; name; "-----BEGIN key1"] ->
  envelope (head ++ "." ++ name ++ ".-----BEGIN key1") head name "-----BEGIN key1"
           header claims.
Proof.
  intros Hheader Hclaims Hsplit.
  by exists (Sample.bytes head), (Sample.bytes name).
Qed.

Lemma token_authentic_more (name : string) (claims : jwt.RegisteredClaims) :
  Sample.UnmarshalClaims_more (Sample.bytes name) = Ok claims ->
  strings.Split ("PS256/key1." ++ name ++ ".-----BEGIN key1") "." =
    ["PS256/key1"; name; "-----BEGIN key1"] ->
  authentic Sample.verifier0 ("PS256/key1." ++ name ++ ".-----BEGIN key1") claims.
Proof.
  intros Hclaims Hsplit.
  exists "PS256/key1", name, "-----BEGIN key1", (Sample.bytes "PS256/key1"),
    (<["alg" := any_string "PS256"]> (<["kid" := any_string "key1"]> ∅)),
    (Sample.bytes name), (Sample.bytes "-----BEGIN key1"), "key1",
    (Sample.bytes "-----BEGIN key1").
  repeat split; done.
Qed.

(** Rotation on the instance: key1 is gone, key3 resolves. *)
Lemma SetKeys_rotates_witness :
  exists v' : Verifier Sample.PublicKey,
    SetKeys Sample.rotatedKeys Sample.verifier0 = Returns (None, v') /\
    locked v' = false /\ parseOptions v' = parseOptions Sample.verifier0 /\
    forall (token : jwt.Token jwt.RegisteredClaims Sample.PublicKey) kid,
      jwt.Header token !! "kid" = Some (any_string kid) ->
      match Sample.rotatedKeys !! kid with
      | Some pem =>
          exists key, jwt.ParseRSAPublicKeyFromPEM pem = Ok key /\
                      KeyFunc token v' = Returns (Ok key, v')
      | None =>
          KeyFunc token v' = Returns (Err (errorString ("no such key " ++ kid)), v')
      end.
Proof.
  apply (SetKeys_rotates Sample.rotatedKeys Sample.verifier0).
  - reflexivity.
  - exact rotatedKeys_parse.
Defined.

Lemma installed_policy_witness :
  locked Sample.verifier0 = false /\
  jwt.NewParser (parseOptions Sample.verifier0) =
  jwt.mkParser (Some ["PS256"]) false
    (jwt.mkValidator 300000000000%Z Sample.clock true true
       ssdTokenAudience ssdTokenIssuer "").
Proof.
  apply (installed_policy Sample.clock Sample.verifier0).
  apply (installed_new _ Sample.validPEMKeys). vm_compute. reflexivity.
Defined.

Lemma VerifyToken_keeps_verifier_witness :
  exists r, VerifyToken "not a token" Sample.verifier0 = Returns (r, Sample.verifier0) /\
            forall r' v', VerifyToken "not a token" Sample.verifier0 = Returns (r', v') ->
                          locked v' = false /\ Keys v' = Keys Sample.verifier0.
Proof.
  apply (VerifyToken_keeps_verifier Sample.verifier0 "not a token"). reflexivity.
Defined.

Lemma VerifyToken_accepts_authentic_only_witness :
  Sample.verifier0 = Sample.verifier0 /\
  authentic Sample.verifier0 Sample.token_valid
    (Sample.claims (Some (Sample.now + 60 * time.Minute)%Z)
                   (Some (Sample.now - time.Minute)%Z)).
Proof.
  apply (VerifyToken_accepts_authentic_only Sample.clock Sample.verifier0
           Sample.verifier0 Sample.token_valid).
  - apply (installed_new _ Sample.validPEMKeys). vm_compute. reflexivity.
  - vm_compute. reflexivity.
Defined.


Lemma VerifyToken_requires_exp_witness :
  exists err,
    VerifyToken "PS256/key1.noexp.-----BEGIN key1" Sample.verifier0 =
    Returns (Err err, Sample.verifier0) /\
    Is err jwt.ErrTokenInvalidClaims = true /\
    Is err jwt.ErrTokenRequiredClaimMissing = true.
Proof.
  apply (VerifyToken_requires_exp Sample.clock Sample.verifier0
           "PS256/key1.noexp.-----BEGIN key1"
           (jwt.mkRegisteredClaims Sample.issuer "user" [Sample.audience]
              None None None "")).
  - apply (installed_new _ Sample.validPEMKeys). vm_compute. reflexivity.
  - apply (token_authentic_more "noexp"); vm_compute; reflexivity.
  - reflexivity.
Defined.


Lemma VerifyToken_checks_issuer_witness :
  exists err,
    VerifyToken "PS256/key1.stranger.-----BEGIN key1" Sample.verifier0 =
    Returns (Err err, Sample.verifier0) /\
    Is err jwt.ErrTokenInvalidClaims = true /\
    ("Mallory" <> "" -> Is err jwt.ErrTokenInvalidIssuer = true) /\
    ("Mallory" = "" -> Is err jwt.ErrTokenRequiredClaimMissing = true).
Proof.
  apply (VerifyToken_checks_issuer Sample.clock Sample.verifier0
           "PS256/key1.stranger.-----BEGIN key1"
           (jwt.mkRegisteredClaims "Mallory" "user" [Sample.audience]
              (Some (Sample.now + 60 * time.Minute)%Z) None None "")
           "Mallory").
  - apply (installed_new _ Sample.validPEMKeys). vm_compute. reflexivity.
  - apply (token_authentic_more "stranger"); vm_compute; reflexivity.
  - vm_compute. discriminate.
  - reflexivity.
  - vm_compute. discriminate.
Defined.

Lemma VerifyToken_checks_audience_witness :
  exists err,
    VerifyToken "PS256/key1.elsewhere.-----BEGIN key1" Sample.verifier0 =
    Returns (Err err, Sample.verifier0) /\
    Is err jwt.ErrTokenInvalidClaims = true /\
    (Is err jwt.ErrTokenInvalidAudience = true \/
     Is err jwt.ErrTokenRequiredClaimMissing = true).
Proof.
  apply (VerifyToken_checks_audience Sample.clock Sample.verifier0
           "PS256/key1.elsewhere.-----BEGIN key1"
           (jwt.mkRegisteredClaims Sample.issuer "user" ["example.org"]
              (Some (Sample.now + 60 * time.Minute)%Z) None None "")
           ["example.org"]).
  - apply (installed_new _ Sample.validPEMKeys). vm_compute. reflexivity.
  - apply (token_authentic_more "elsewhere"); vm_compute; reflexivity.
  - vm_compute. discriminate.
  - reflexivity.
  - intros [Heq|Hin%elem_of_nil]%elem_of_cons; [|done].
    revert Heq. vm_compute. discriminate.
Defined.

Lemma VerifyToken_key_not_resolved_witness :
  VerifyToken Sample.token_unknown_kid Sample.verifier0 =
  Returns (Err (jwt.newError "error while executing keyfunc"
                  jwt.ErrTokenUnverifiable
                  [errorString ("no such key " ++ "key99")]), Sample.verifier0).
Proof.
  refine (proj1 (VerifyToken_key_not_resolved Sample.clock Sample.verifier0
                   Sample.token_unknown_kid "PS256/key99" "valid" "-----BEGIN key1"
                   (<["alg" := any_string "PS256"]> (<["kid" := any_string "key99"]> ∅))
                   (Sample.claims (Some (Sample.now + 60 * time.Minute)%Z)
                                  (Some (Sample.now - time.Minute)%Z))
                   (Sample.bytes "-----BEGIN key1") _ _ _ _) "key99" _ _).
  - apply (installed_new _ Sample.validPEMKeys). vm_compute. reflexivity.
  - apply (token_envelope "PS256/key99" "valid"); vm_compute; reflexivity.
  - vm_compute. reflexivity.
  - reflexivity.
  - vm_compute. reflexivity.
  - vm_compute. reflexivity.
Defined.

Lemma VerifyToken_bad_signature_witness :
  VerifyToken Sample.token_wrong_key Sample.verifier0 =
  Returns (Err (jwt.newError "" jwt.ErrTokenSignatureInvalid
                  [errorString "crypto/rsa: verification error"]), Sample.verifier0).
Proof.
  apply (VerifyToken_bad_signature Sample.clock Sample.verifier0
           Sample.token_wrong_key "PS256/key2" "valid" "-----BEGIN key1"
           (<["alg" := any_string "PS256"]> (<["kid" := any_string "key2"]> ∅))
           (Sample.claims (Some (Sample.now + 60 * time.Minute)%Z)
                          (Some (Sample.now - time.Minute)%Z))
           (Sample.bytes "-----BEGIN key1") "key2" (Sample.bytes "-----BEGIN key2")).
  - apply (installed_new _ Sample.validPEMKeys). vm_compute. reflexivity.
  - apply (token_envelope "PS256/key2" "valid"); vm_compute; reflexivity.
  - vm_compute. reflexivity.
  - reflexivity.
  - vm_compute. reflexivity.
  - vm_compute. reflexivity.
  - vm_compute. reflexivity.
Defined.

Lemma VerifyToken_algorithm_error_witness :
  VerifyToken Sample.token_hs256 Sample.verifier0 =
  Returns (Err (jwt.newError ("signing method " ++ "HS256" ++ " is invalid")
                             jwt.ErrTokenSignatureInvalid []), Sample.verifier0).
Proof.
  apply (VerifyToken_algorithm_error Sample.clock Sample.verifier0
           Sample.token_hs256 "HS256/key1" "valid" "-----BEGIN key1"
           (<["alg" := any_string "HS256"]> (<["kid" := any_string "key1"]> ∅))
           (Sample.claims (Some (Sample.now + 60 * time.Minute)%Z)
                          (Some (Sample.now - time.Minute)%Z))
           "HS256").
  - apply (installed_new _ Sample.validPEMKeys). vm_compute. reflexivity.
  - apply (token_envelope "HS256/key1" "valid"); vm_compute; reflexivity.
  - vm_compute. reflexivity.
  - vm_compute. discriminate.
Defined.

Lemma VerifyToken_segments_witness :
  VerifyToken "abc.def" Sample.verifier0 =
  Returns (Err (jwt.newError "token contains an invalid number of segments"
                             jwt.ErrTokenMalformed []), Sample.verifier0).
Proof.
  apply (VerifyToken_segments Sample.verifier0 "abc.def").
  vm_compute. discriminate.
Defined.


Lemma tokenFromHeaders_token_shape_witness :
  (http.Get (http.Header_of Sample.request_bearer) "Authorization" = "" /\
   "abc.def.ghi" = "") \/
  exists a rest,
    http.Get (http.Header_of Sample.request_bearer) "Authorization" =
      (a ++ "Bearer " ++ "abc.def.ghi" ++ rest)%string /\
    ~ strings.Contains a "Bearer " /\ ~ strings.Contains "abc.def.ghi" "Bearer " /\
    (rest = "" \/ strings.HasPrefix rest "Bearer " = true).
Proof.
  apply (tokenFromHeaders_token_shape Sample.request_bearer "abc.def.ghi").
  vm_compute. reflexivity.
Defined.

(** The fallback header and the cookie of a request do not count when
    Authorization has a value. *)
Lemma tokenFromHeaders_reads_two_headers_witness :
  tokenFromHeaders Sample.request_two_headers = tokenFromHeaders Sample.request_bearer.
Proof.
  apply (tokenFromHeaders_reads_two_headers Sample.request_two_headers
           Sample.request_bearer).
  - vm_compute. reflexivity.
  - left. vm_compute. discriminate.
Defined.


Lemma MiddlewareFunc_no_headers_witness :
  MiddlewareFunc Sample.downstream Sample.request_bare
    (mkWorld Sample.verifier_literal http.fresh) =
  Returns (tt, mkWorld Sample.verifier_literal
                 (http.Write (list_byte_of_string "Unauthorized")
                    (http.WriteHeader http.StatusUnauthorized http.fresh))).
Proof.
  apply (MiddlewareFunc_no_headers Sample.downstream Sample.request_bare
           (mkWorld Sample.verifier_literal http.fresh)); reflexivity.
Defined.

Lemma MiddlewareFunc_passes_claims_witness :
  exists r',
    MiddlewareFunc Sample.downstream Sample.request_authorization
      (mkWorld Sample.verifier0 http.fresh) =
    Sample.downstream r' (mkWorld Sample.verifier0 http.fresh) /\
    http.Header_of r' = http.Header_of Sample.request_authorization /\
    SSDClaimsFromContext (http.Context r') =
      (Some (Sample.claims (Some (Sample.now + 60 * time.Minute)%Z)
                           (Some (Sample.now - time.Minute)%Z)), true) /\
    SSDTokenFromContext (http.Context r') = (Sample.token_valid, true) /\
    forall key, (forall n, key <> any_ssdContextKeyType n) ->
      context.Value (http.Context r') key =
      context.Value (http.Context Sample.request_authorization) key.
Proof.
  apply (MiddlewareFunc_passes_claims Sample.downstream Sample.request_authorization
           (mkWorld Sample.verifier0 http.fresh) Sample.token_valid
           (Sample.claims (Some (Sample.now + 60 * time.Minute)%Z)
                          (Some (Sample.now - time.Minute)%Z))
           Sample.verifier0).
  - vm_compute. reflexivity.
  - vm_compute. reflexivity.
Defined.

Lemma contextWithToken_other_keys_witness :
  context.Value
    (contextWithToken context.Background (Some (Sample.claims None None)) "abc")
    (any_string "user") =
  context.Value context.Background (any_string "user").
Proof.
  apply (contextWithToken_other_keys context.Background
           (Some (Sample.claims None None)) "abc" (any_string "user") any_nil).
  intros n. discriminate.
Defined.

End More.
